(** * Session fabric and account deletion: a shallow embedding

    The Express application (bootstrap file: middleware chain, CSRF cookie,
    error-handling middleware) and the profile router
    ([routes/api/v1/profile.js]: delete account, attach payment card) are
    embedded as programs of a small state-and-exception monad.  External
    collaborators (relational store, document store, blob store, payment
    provider, session teardown) are driven by a [backends] record that says,
    call by call, whether the collaborator resolves or rejects. *)

From Stdlib Require Import List String ZArith Bool Lia.
Import ListNotations.
Open Scope string_scope.
Open Scope list_scope.
Open Scope Z_scope.

(** ** Values *)

Definition url := string.

(** A JavaScript [Error]: the two fields the application reads. *)
Record error := mkError { message : string; stack : string }.

(** A nullable string column ([null] is [None]). *)
Definition nullable := option string.

(** JavaScript truthiness of a nullable string: [null] and [''] are falsy. *)
Definition truthy (v : nullable) : bool :=
  match v with
  | None => false
  | Some s => negb (String.eqb s "")
  end.

(** Row of the relational [users] table, as far as the routes read it. *)
Record user := mkUser {
  id : Z;
  email : string;
  picture : nullable;
  stripe_customer_id : nullable;
  stripe_card_id : nullable
}.

(** Row of the relational [articles] table. *)
Record article := mkArticle {
  articleId : Z;
  authorId : Z;
  article_picture : nullable
}.

(** Document of the [articlesviews] collection. *)
Record articles_view := mkView { view_articleId : Z; view_authorId : Z }.

(** Raw row of a query with [attributes: ['picture']]. *)
Record raw_row := mkRow { row_picture : url }.

(** The object handed to [user.update]: absent keys are [None]. *)
Record update_data := mkUpdate {
  upd_stripe_customer_id : option string;
  upd_stripe_card_id : option string
}.

Inductive http_method := GET | HEAD | OPTIONS | POST | PUT | DELETE.

Inductive route :=
  | ProfileRoot        (* /api/v1/profile *)
  | ProfileCard        (* /api/v1/profile/card *)
  | OtherPath.

(** Response bodies the embedded code can send. *)
Inductive body :=
  | BError (msg : string)          (* { error: err.message } *)
  | BUser (u : user)               (* { data: user } *)
  | BLoggedOut                     (* what the session teardown answers *)
  | BFrontend                      (* the proxied front-end page *)
  | BNotFound.                     (* the framework's default answer *)

(** Entry written through [errorLogger.log]. *)
Record log_entry := mkLog {
  level : string;
  log_message : string;
  metadata : string;
  label : string
}.

Inductive info_entry :=
  | UserDeleted (uid : Z).         (* `User ${id} was successfully deleted` *)

(** Calls made to the collaborators, in the order they are started. *)
Inductive event :=
  | EvFindAll (author : Z)
  | EvDestroy (uid : Z)
  | EvDeleteFile (u : url)
  | EvDeleteMany (author : Z)
  | EvLogout
  | EvCreateCustomer (mail : string)
  | EvCreateCard (tok : string) (customer : string)
  | EvUpdate (uid : Z) (d : update_data).

(** ** Request, response, stores *)

(** [req.session]: the CSRF secret lives here (csurf without cookie option). *)
Record session_obj := mkSession { csrfSecret : option string }.

Record request := mkReq {
  method : http_method;
  path : route;
  supplied_token : option string;    (* _csrf field or x-csrf-token header *)
  card_token : string;               (* req.body.token *)
  session : session_obj;             (* req.session *)
  req_user : option user             (* req.user *)
}.

Record response := mkRes {
  statusCode : Z;
  cookies : list (string * string);
  sent : option (Z * body)           (* status and body once the response went out *)
}.

Definition fresh_res : response := mkRes 200 [] None.

Record world := mkWorld {
  users : list user;
  articles : list article;
  blobs : list url;
  articlesviews : list articles_view;
  session_alive : bool;
  info_log : list info_entry;
  error_log : list log_entry;
  trace : list event
}.

Record state := mkState { req : request; res : response; wld : world }.

(** How the collaborators answer during one request. [None] means the call
    resolves. *)
Record backends := mkBackends {
  bodyParser_fault : option error;
  session_fault : option error;
  passport_fault : option error;
  findAll_fault : option error;
  destroy_fault : option error;
  deleteFile_fault : url -> option error;
  deleteMany_fault : option error;
  logout_fault : option error;
  update_fault : option error;
  createCustomer_reply : string -> string + error;
  createCard_reply : string -> string -> string + error;
  tokens_secret : string;            (* what tokens.secretSync() draws *)
  tokens_salt : string;              (* the salt tokens.create draws *)
  frontend_fault : option error;     (* https.get(FRONTEND_URL) cannot connect *)
  deleteFile_settles : url -> nat    (* when the deletion of a blob settles *)
}.

(** The token scheme used by csurf: a token is made from the session secret
    and a salt, and verified against the secret alone. *)
Record token_lib := mkTokens {
  tokens_create : string -> string -> string;   (* secret, salt *)
  tokens_verify : string -> string -> bool      (* secret, token *)
}.

(** ** The monad: state with exceptions that keep the state *)

Inductive result (A : Type) :=
  | Ok (a : A)
  | Throw (e : error).
Arguments Ok {A} a.
Arguments Throw {A} e.

Definition M (A : Type) := state -> result A * state.

Definition ret {A} (a : A) : M A := fun s => (Ok a, s).

Definition throw {A} (e : error) : M A := fun s => (Throw e, s).

Definition bind {A B} (m : M A) (k : A -> M B) : M B :=
  fun s =>
    match m s with
    | (Ok a, s') => k a s'
    | (Throw e, s') => (Throw e, s')
    end.

Notation "x <- m ;; k" := (bind m (fun x => k))
  (at level 61, m at next level, right associativity).
Notation "m ;; k" := (bind m (fun _ => k))
  (at level 61, right associativity).

Definition get : M state := fun s => (Ok s, s).
Definition modify_world (f : world -> world) : M unit :=
  fun s => (Ok tt, mkState (req s) (res s) (f (wld s))).
Definition modify_res (f : response -> response) : M unit :=
  fun s => (Ok tt, mkState (req s) (f (res s)) (wld s)).
Definition modify_req (f : request -> request) : M unit :=
  fun s => (Ok tt, mkState (f (req s)) (res s) (wld s)).

(** Awaiting a collaborator call: rejects when the backend reports a fault. *)
Definition await (fault : option error) : M unit :=
  match fault with
  | Some e => throw e
  | None => ret tt
  end.

(** What a batch of promises comes to: all fulfilled, or rejected with the
    rejection that settled first, at time [t]. *)
Inductive settled (A : Type) :=
  | Fulfilled (l : list A)
  | Rejected (t : nat) (e : error).
Arguments Fulfilled {A} l.
Arguments Rejected {A} t e.

(** Every promise of the list has been created, so every call runs; each
    promise comes with the time at which it settles.  Of several rejections
    the one that settles first counts (the earlier promise on a tie). *)
Fixpoint settle_all {A} (ps : list (nat * M A)) : state -> settled A * state :=
  match ps with
  | [] => fun s => (Fulfilled [], s)
  | (t, p) :: ps' =>
      fun s =>
        let (r, s1) := p s in
        let (rs, s2) := settle_all ps' s1 in
        (match r, rs with
         | Ok a, Fulfilled l => Fulfilled (a :: l)
         | Ok _, Rejected t' e' => Rejected t' e'
         | Throw e, Fulfilled _ => Rejected t e
         | Throw e, Rejected t' e' =>
             if (t' <? t)%nat then Rejected t' e' else Rejected t e
         end, s2)
  end.

(** [Promise.all(ps)]: rejects with the first rejection in time. *)
Definition promise_all {A} (ps : list (nat * M A)) : M (list A) :=
  fun s =>
    match settle_all ps s with
    | (Fulfilled l, s') => (Ok l, s')
    | (Rejected _ e, s') => (Throw e, s')
    end.

(** ** World updates *)

Definition log_event (e : event) (w : world) : world :=
  mkWorld (users w) (articles w) (blobs w) (articlesviews w)
          (session_alive w) (info_log w) (error_log w) (trace w ++ [e]).

Definition set_users (l : list user) (w : world) : world :=
  mkWorld l (articles w) (blobs w) (articlesviews w)
          (session_alive w) (info_log w) (error_log w) (trace w).

Definition set_blobs (l : list url) (w : world) : world :=
  mkWorld (users w) (articles w) l (articlesviews w)
          (session_alive w) (info_log w) (error_log w) (trace w).

Definition set_views (l : list articles_view) (w : world) : world :=
  mkWorld (users w) (articles w) (blobs w) l
          (session_alive w) (info_log w) (error_log w) (trace w).

Definition set_session_alive (b : bool) (w : world) : world :=
  mkWorld (users w) (articles w) (blobs w) (articlesviews w)
          b (info_log w) (error_log w) (trace w).

Definition add_info (i : info_entry) (w : world) : world :=
  mkWorld (users w) (articles w) (blobs w) (articlesviews w)
          (session_alive w) (info_log w ++ [i]) (error_log w) (trace w).

Definition add_error (l : log_entry) (w : world) : world :=
  mkWorld (users w) (articles w) (blobs w) (articlesviews w)
          (session_alive w) (info_log w) (error_log w ++ [l]) (trace w).

Definition emit (e : event) : M unit := modify_world (log_event e).

(** ** The response object *)

Definition headers_sent : error :=
  mkError "Cannot set headers after they are sent to the client"
          "ERR_HTTP_HEADERS_SENT".

(** The [TypeError] of reading a property of [undefined].  Its text depends
    on the statement and on the runtime; it stands for any of them, and no
    property below depends on it. *)
Definition type_error : error :=
  mkError "Cannot read properties of undefined" "TypeError".

(** [res.status(code)] *)
Definition res_status (code : Z) : M unit :=
  modify_res (fun r => mkRes code (cookies r) (sent r)).

(** [res.send(body)] / [res.json(body)]: throws once the response went out. *)
Definition res_send (b : body) : M unit :=
  s <- get ;;
  match sent (res s) with
  | Some _ => throw headers_sent
  | None => modify_res (fun r => mkRes (statusCode r) (cookies r)
                                       (Some (statusCode r, b)))
  end.

Definition res_json : body -> M unit := res_send.

(** [res.cookie(name, value)] *)
Definition res_cookie (name value : string) : M unit :=
  s <- get ;;
  match sent (res s) with
  | Some _ => throw headers_sent
  | None => modify_res (fun r => mkRes (statusCode r)
                                       (cookies r ++ [(name, value)]) (sent r))
  end.

(** ** Collaborators *)

Section Collaborators.
Variable T : token_lib.
Variable B : backends.

(** [Article.findAll({ where: { authorId: id, picture: { [Op.not]: null } },
    raw: true, attributes: ['picture'] })]: the pictures of the author's
    articles that have one, returned as raw rows of one attribute. *)
Definition picture_rows (uid : Z) (l : list article) : list url :=
  flat_map (fun a => if authorId a =? uid
                     then match article_picture a with
                          | Some p => [p]
                          | None => []
                          end
                     else []) l.

Definition Article_findAll (uid : Z) : M (list raw_row) :=
  emit (EvFindAll uid) ;;
  await (findAll_fault B) ;;
  s <- get ;;
  ret (map mkRow (picture_rows uid (articles (wld s)))).

(** [req.user.destroy()]: DELETE of the row with the instance's id. *)
Definition delete_row (uid : Z) (l : list user) : list user :=
  filter (fun r => negb (id r =? uid)) l.

Definition user_destroy (u : user) : M user :=
  emit (EvDestroy (id u)) ;;
  await (destroy_fault B) ;;
  modify_world (fun w => set_users (delete_row (id u) (users w)) w) ;;
  ret u.

(** [deleteFile(url)] of the blob-store service. *)
Definition remove_blob (u : url) (l : list url) : list url :=
  filter (fun b => negb (String.eqb b u)) l.

Definition deleteFile (u : url) : M unit :=
  emit (EvDeleteFile u) ;;
  await (deleteFile_fault B u) ;;
  modify_world (fun w => set_blobs (remove_blob u (blobs w)) w).

(** [ArticlesView.deleteMany({ authorId: id })] *)
Definition delete_views (uid : Z) (l : list articles_view) : list articles_view :=
  filter (fun v => negb (view_authorId v =? uid)) l.

Definition ArticlesView_deleteMany (uid : Z) : M unit :=
  emit (EvDeleteMany uid) ;;
  await (deleteMany_fault B) ;;
  modify_world (fun w => set_views (delete_views uid (articlesviews w)) w).

(** [infoLogger.log] *)
Definition infoLogger_log (i : info_entry) : M unit :=
  modify_world (add_info i).

(** [errorLogger.log] *)
Definition errorLogger_log (l : log_entry) : M unit :=
  modify_world (add_error l).

(** Modelled from the spec: [authService.logout(req, res, next)], whose
    source file is not available.  It destroys the Session
    Record (the force-close publication has no further effect on the state
    modelled here) and answers the request; when the teardown fails the
    error reaches the caller of [logout]. *)
Definition authService_logout : M unit :=
  emit EvLogout ;;
  await (logout_fault B) ;;
  modify_world (set_session_alive false) ;;
  res_json BLoggedOut.

(** [createCustomer(email)] and [createCard(token, customerId)] of the
    payment service. *)
Definition createCustomer (mail : string) : M string :=
  emit (EvCreateCustomer mail) ;;
  match createCustomer_reply B mail with
  | inl c => ret c
  | inr e => throw e
  end.

Definition createCard (tok customer : string) : M string :=
  emit (EvCreateCard tok customer) ;;
  match createCard_reply B tok customer with
  | inl c => ret c
  | inr e => throw e
  end.

(** [user.update(updateData)]: the instance takes the given keys, then the
    row is saved. *)
Definition apply_update (d : update_data) (u : user) : user :=
  mkUser (id u) (email u) (picture u)
         (match upd_stripe_customer_id d with
          | Some c => Some c
          | None => stripe_customer_id u
          end)
         (match upd_stripe_card_id d with
          | Some c => Some c
          | None => stripe_card_id u
          end).

Definition update_row (uid : Z) (d : update_data) (l : list user) : list user :=
  map (fun r => if id r =? uid then apply_update d r else r) l.

Definition user_update (u : user) (d : update_data) : M user :=
  emit (EvUpdate (id u) d) ;;
  modify_req (fun r => mkReq (method r) (path r) (supplied_token r)
                             (card_token r) (session r)
                             (Some (apply_update d u))) ;;
  await (update_fault B) ;;
  modify_world (fun w => set_users (update_row (id u) d (users w)) w) ;;
  ret (apply_update d u).

(** ** Route handlers of [routes/api/v1/profile.js] *)

(** Reading [req.user]: a [TypeError] when no user is attached. *)
Definition the_user : M user :=
  s <- get ;;
  match req_user (req s) with
  | Some u => ret u
  | None => throw type_error
  end.

Definition when (b : bool) (m : M unit) : M unit :=
  if b then m else ret tt.

(** DELETE api/v1/profile *)
Definition delete_profile : M unit :=
  u <- the_user ;;
  let id := id u in
  let oldProfilePicture := picture u in
  (* find all articles pictures to delete them *)
  rows <- Article_findAll id ;;
  let articlesPictures := map (fun i => row_picture i) rows in
  (* MySQL operations: delete user record *)
  destroyed <- user_destroy u ;;
  (* delete profile picture *)
  match oldProfilePicture with
  | Some p => when (truthy oldProfilePicture) (deleteFile p)
  | None => ret tt
  end ;;
  (* delete articles pictures *)
  when (negb (Nat.eqb (List.length articlesPictures) 0))
       (promise_all (map (fun url => (deleteFile_settles B url, deleteFile url))
                         articlesPictures) ;; ret tt) ;;
  (* MongoDB operations: delete docs from articlesviews collection *)
  ArticlesView_deleteMany id ;;
  (* logging success *)
  infoLogger_log (UserDeleted id) ;;
  authService_logout.

(** PUT api/v1/profile/card *)
Definition put_card : M unit :=
  s <- get ;;
  let token := card_token (req s) in
  user <- the_user ;;
  let customerId := stripe_customer_id user in
  let updateData := mkUpdate None None in
  (* create stripe customer for user if it doesn't exist *)
  cu <- match customerId with
        | Some c =>
            if truthy customerId then ret (c, updateData)
            else (c' <- createCustomer (email user) ;;
                  ret (c', mkUpdate (Some c') (upd_stripe_card_id updateData)))
        | None =>
            c' <- createCustomer (email user) ;;
            ret (c', mkUpdate (Some c') (upd_stripe_card_id updateData))
        end ;;
  let customerId := fst cu in
  let updateData := snd cu in
  (* create stripe card *)
  cardId <- createCard token customerId ;;
  let updateData := mkUpdate (upd_stripe_customer_id updateData) (Some cardId) in
  (* MySQL operation: save card id and stripe customer id *)
  user' <- user_update user updateData ;;
  (* send response *)
  res_json (BUser user').

(** ** The application: middleware chain of the bootstrap file *)

(** What a middleware did with [next]: called it, or ended the exchange
    itself.  [next(err)] and a thrown error are the monad's [Throw]. *)
Inductive outcome := Next | End.

(** [asyncHandler(fn)]: a rejection of [fn] goes to [next(err)]. *)
Definition asyncHandler (fn : M unit) : M outcome :=
  fn ;; ret End.

Definition bodyParser : M outcome := await (bodyParser_fault B) ;; ret Next.

Definition session_middleware : M outcome := await (session_fault B) ;; ret Next.

(** csurf with default options: methods that are not verified. *)
Definition ignoreMethod (m : http_method) : bool :=
  match m with
  | GET | HEAD | OPTIONS => true
  | _ => false
  end.

Definition verify_supplied (secret : string) (t : option string) : bool :=
  match t with
  | Some v => tokens_verify T secret v
  | None => false
  end.

Definition set_secret (k : string) (r : request) : request :=
  mkReq (method r) (path r) (supplied_token r) (card_token r)
        (mkSession (Some k)) (req_user r).

Definition csrf_error : error := mkError "invalid csrf token" "ForbiddenError".

(** [csrf()]: keeps the session's secret (creating it once), then verifies
    the supplied token on every method that is not ignored. *)
Definition csrf : M outcome :=
  s <- get ;;
  secret <- match csrfSecret (session (req s)) with
            | Some k => ret k
            | None => modify_req (set_secret (tokens_secret B)) ;;
                      ret (tokens_secret B)
            end ;;
  if negb (ignoreMethod (method (req s)))
     && negb (verify_supplied secret (supplied_token (req s)))
  then throw csrf_error
  else ret Next.

(** [req.csrfToken()] *)
Definition req_csrfToken : M string :=
  s <- get ;;
  match csrfSecret (session (req s)) with
  | Some k => ret (tokens_create T k (tokens_salt B))
  | None => modify_req (set_secret (tokens_secret B)) ;;
            ret (tokens_create T (tokens_secret B) (tokens_salt B))
  end.

(** [app.all('*', ...)]: the readable CSRF cookie. *)
Definition xsrf_cookie : M outcome :=
  t <- req_csrfToken ;;
  res_cookie "XSRF-TOKEN" t ;;
  ret Next.

Definition passport_initialize : M outcome := ret Next.

Definition passport_session : M outcome := await (passport_fault B) ;; ret Next.

(** [app.get('*', ...)], which also serves HEAD: the front-end page is piped
    into the response once the front end answers.  The request to the front
    end has no error handling: when it cannot connect, nothing is sent. *)
Definition frontend : M outcome :=
  s <- get ;;
  match method (req s) with
  | GET | HEAD =>
      match frontend_fault B with
      | Some _ => ret End
      | None => res_send BFrontend ;; ret End
      end
  | _ => ret Next
  end.

(** The error-handling middleware. *)
Definition error_middleware (err : error) : M unit :=
  s <- get ;;
  when (statusCode (res s) =? 200)
       (res_status 500 ;; res_send (BError (message err))) ;;
  errorLogger_log (mkLog "error" (message err) (stack err) "express").

(** Express dispatch: stages run in registration order until one does not
    call [next]; an error skips every remaining regular stage. *)
Fixpoint dispatch (stages : list (M outcome)) : M outcome :=
  match stages with
  | [] => ret Next
  | m :: rest =>
      o <- m ;;
      match o with
      | Next => dispatch rest
      | End => ret End
      end
  end.

(** Registration order of the bootstrap file: the stages in front of
    passport and the routers, then the rest. *)
Definition front_stages : list (M outcome) :=
  [ bodyParser; session_middleware; csrf; xsrf_cookie ].

Definition back_stages (router : M outcome) : list (M outcome) :=
  [ passport_initialize; passport_session; router; frontend ].

Definition stages (router : M outcome) : list (M outcome) :=
  front_stages ++ back_stages router.

Definition app (router : M outcome) : M unit :=
  fun s =>
    match dispatch (stages router) s with
    | (Ok End, s') => (Ok tt, s')
    | (Ok Next, s') => (res_status 404 ;; res_send BNotFound) s'
    | (Throw e, s') => error_middleware e s'
    end.

(** The profile router, as far as its handlers are embedded here: the
    delete-account and attach-card routes, each behind the login guard
    [isLoggedIn].  (The update-profile and update-picture routes of the same
    router are not part of this definition; the handler of the latter is
    embedded on its own in [Picture].) *)
Definition profile_router (isLoggedIn : M outcome) : M outcome :=
  s <- get ;;
  match path (req s), method (req s) with
  | ProfileRoot, DELETE =>
      o <- isLoggedIn ;;
      match o with
      | Next => asyncHandler delete_profile
      | End => ret End
      end
  | ProfileCard, PUT =>
      o <- isLoggedIn ;;
      match o with
      | Next => asyncHandler put_card
      | End => ret End
      end
  | _, _ => ret Next
  end.

(** A route handler behind [asyncHandler], with the error middleware
    behind it: what the caller of the route observes. *)
Definition handle (fn : M unit) : M unit :=
  fun s =>
    match fn s with
    | (Ok _, s') => (Ok tt, s')
    | (Throw e, s') => error_middleware e s'
    end.

End Collaborators.


(** ** Session lifetime *)

(** [sessionConfig] of the bootstrap file (the store and the secret are
    collaborators). *)
Record session_config := mkConfig {
  store_prefix : string;
  saveUninitialized : bool;
  resave : bool;
  cookie_name : string;
  cookie_maxAge : Z                  (* milliseconds *)
}.

Definition sessionConfig : session_config :=
  mkConfig "nadia:session:" false false "sid" (48 * 3600 * 1000).

(** The session store behind [session(sessionConfig)], by the contract of
    express-session with the Redis store: one entry per session id, with the
    time (in milliseconds) at which the entry expires.  Saving an entry and
    touching it both set that time to [cookie.maxAge] after the request, and
    an entry whose time has passed is gone. *)
Record stored_session := mkStored {
  sessionId : string;
  identityId : Z;
  expiresAt : Z
}.

Definition has_id (sid : string) (r : stored_session) : bool :=
  String.eqb (sessionId r) sid.

(** [store.set]: the session is saved when it is created at login. *)
Definition store_set (cfg : session_config) (now : Z) (sid : string) (identity : Z)
    (store : list stored_session) : list stored_session :=
  mkStored sid identity (now + cookie_maxAge cfg) :: store.

(** [store.get] at time [now]. *)
Definition store_get (now : Z) (sid : string) (store : list stored_session)
    : option stored_session :=
  match find (has_id sid) store with
  | Some r => if now <? expiresAt r then Some r else None
  | None => None
  end.

(** [store.touch] at time [now]. *)
Definition store_touch (cfg : session_config) (now : Z) (sid : string)
    (store : list stored_session) : list stored_session :=
  map (fun r => if has_id sid r
                then mkStored (sessionId r) (identityId r) (now + cookie_maxAge cfg)
                else r) store.

(** One request at time [now] that carries session id [sid]: the session is
    loaded and, when it is there, touched as the response ends
    ([resave: false]). *)
Definition session_request (cfg : session_config) (now : Z) (sid : string)
    (store : list stored_session) : option Z * list stored_session :=
  match store_get now sid store with
  | Some r => (Some (identityId r), store_touch cfg now sid store)
  | None => (None, store)
  end.

(** The store after requests with session id [sid] at the given times. *)
Fixpoint visits (cfg : session_config) (times : list Z) (sid : string)
    (store : list stored_session) : list stored_session :=
  match times with
  | [] => store
  | t :: times' => visits cfg times' sid (snd (session_request cfg t sid store))
  end.

(** ** Reference descriptions used by the statements *)

(** The rejection of a batch of blob deletions that settles first, with its
    time (the earlier blob on a tie). *)
Fixpoint first_rejection (B : backends) (l : list url) : option (nat * error) :=
  match l with
  | [] => None
  | u :: l' =>
      match deleteFile_fault B u, first_rejection B l' with
      | None, r => r
      | Some e, None => Some (deleteFile_settles B u, e)
      | Some e, Some (t', e') =>
          if (t' <? deleteFile_settles B u)%nat
          then Some (t', e')
          else Some (deleteFile_settles B u, e)
      end
  end.

(** The error a batch of blob deletions rejects with, if any. *)
Definition first_fault (B : backends) (l : list url) : option error :=
  option_map snd (first_rejection B l).

(** The blob store after every deletion of [l] was attempted. *)
Fixpoint sweep (B : backends) (l : list url) (bl : list url) : list url :=
  match l with
  | [] => bl
  | u :: l' =>
      sweep B l' (match deleteFile_fault B u with
                  | Some _ => bl
                  | None => remove_blob u bl
                  end)
  end.

(** The profile picture the delete handler tries to remove, if any. *)
Definition profile_blob (u : user) : list url :=
  match picture u with
  | Some p => if truthy (picture u) then [p] else []
  | None => []
  end.

(** The fault, if any, of the profile-picture deletion. *)
Definition profile_fault (B : backends) (u : user) : option error :=
  first_fault B (profile_blob u).

(** The collaborator calls of a fully successful account deletion. *)
Definition deletion_plan (u : user) (w : world) : list event :=
  [EvFindAll (id u); EvDestroy (id u)]
  ++ map EvDeleteFile (profile_blob u ++ picture_rows (id u) (articles w))
  ++ [EvDeleteMany (id u); EvLogout].

(** The first step of an account deletion that fails, in source order. *)
Definition delete_fault (B : backends) (u : user) (w : world) : option error :=
  match findAll_fault B with
  | Some e => Some e
  | None =>
  match destroy_fault B with
  | Some e => Some e
  | None =>
  match profile_fault B u with
  | Some e => Some e
  | None =>
  match first_fault B (picture_rows (id u) (articles w)) with
  | Some e => Some e
  | None =>
  match deleteMany_fault B with
  | Some e => Some e
  | None => logout_fault B
  end end end end end.

(** The first step in front of the session teardown that fails, in source
    order. *)
Definition cleanup_fault (B : backends) (u : user) (w : world) : option error :=
  match findAll_fault B with
  | Some e => Some e
  | None =>
  match destroy_fault B with
  | Some e => Some e
  | None =>
  match profile_fault B u with
  | Some e => Some e
  | None =>
  match first_fault B (picture_rows (id u) (articles w)) with
  | Some e => Some e
  | None => deleteMany_fault B
  end end end end.

(** The collaborator calls of a run: a step is started exactly when every
    step in front of it succeeded. *)
Definition delete_calls (B : backends) (u : user) (w : world) : list event :=
  EvFindAll (id u) ::
  match findAll_fault B with
  | Some _ => []
  | None =>
  EvDestroy (id u) ::
  match destroy_fault B with
  | Some _ => []
  | None =>
  map EvDeleteFile (profile_blob u) ++
  match profile_fault B u with
  | Some _ => []
  | None =>
  map EvDeleteFile (picture_rows (id u) (articles w)) ++
  match first_fault B (picture_rows (id u) (articles w)) with
  | Some _ => []
  | None =>
  EvDeleteMany (id u) ::
  match deleteMany_fault B with
  | Some _ => []
  | None => [EvLogout]
  end end end end end.

(** All stores and logs of two worlds agree, the error log apart. *)
Definition same_stores (w w' : world) : Prop :=
  users w' = users w /\ articles w' = articles w /\ blobs w' = blobs w /\
  articlesviews w' = articlesviews w /\ session_alive w' = session_alive w /\
  info_log w' = info_log w /\ trace w' = trace w.

(** The session secret csurf verifies against: the stored one, or the one
    it draws when the session has none yet. *)
Definition session_secret (B : backends) (s : state) : string :=
  match csrfSecret (session (req s)) with
  | Some k => k
  | None => tokens_secret B
  end.

(** A response body that shows the error's message or stack. *)
Definition leaks (b : body) (err : error) : Prop :=
  match b with
  | BError m => m = message err \/ m = stack err
  | _ => False
  end.

(** The state after the deletion of every blob of [l] was attempted. *)
Definition swept (B : backends) (l : list url) (s : state) : state :=
  mkState (req s) (res s)
    (mkWorld (users (wld s)) (articles (wld s)) (sweep B l (blobs (wld s)))
             (articlesviews (wld s)) (session_alive (wld s)) (info_log (wld s))
             (error_log (wld s)) (trace (wld s) ++ map EvDeleteFile l)).

(** What a run came to: the error it ended in, if any, and the calls made. *)
Definition batch_result_of {A} (r : result A * state) : option error * list event :=
  (match fst r with
   | Throw e => Some e
   | Ok _ => None
   end, trace (wld (snd r))).

(** The state after a collaborator call was started. *)
Definition logged (e : event) (s : state) : state :=
  mkState (req s) (res s) (log_event e (wld s)).

(** The part of [put_card] after the customer is known. *)
Definition card_tail (B : backends) (u : user) (tok customer : string)
    (d0 : update_data) : M unit :=
  cardId <- createCard B tok customer ;;
  user' <- user_update B u (mkUpdate (upd_stripe_customer_id d0) (Some cardId)) ;;
  res_json (BUser user').

Definition with_user (u : user) (r : request) : request :=
  mkReq (method r) (path r) (supplied_token r) (card_token r) (session r) (Some u).

(** The next request of the same session: the session object is the one the
    previous request left; the response is fresh. *)
Definition follow_up (prev : state) (rq : request) : state :=
  mkState (mkReq (method rq) (path rq) (supplied_token rq) (card_token rq)
                 (session (req prev)) (req_user rq))
          fresh_res (wld prev).

(** The state after a sequence of further requests of the same session, each
    with the answers of its collaborators, served by the application with
    the profile router behind a login guard. *)
Fixpoint serve (T : token_lib) (g : M outcome) (l : list (backends * request))
    (s : state) : state :=
  match l with
  | [] => s
  | (B, rq) :: l' =>
      serve T g l' (snd (app T B (profile_router B g) (follow_up s rq)))
  end.

(** The request is rejected in front of the cookie middleware: by the body
    parser, the session stage or the CSRF guard. *)
Definition rejected_before_cookie (T : token_lib) (B : backends) (s : state) : bool :=
  match bodyParser_fault B, session_fault B with
  | Some _, _ => true
  | None, Some _ => true
  | None, None =>
      negb (ignoreMethod (method (req s)))
      && negb (verify_supplied T (session_secret B s) (supplied_token (req s)))
  end.

(** A stage or handler keeps the CSRF secret [k] of the session. *)
Definition keeps_secret {A} (k : string) (m : M A) : Prop :=
  forall s, csrfSecret (session (req s)) = Some k ->
            csrfSecret (session (req (snd (m s)))) = Some k.

(** ** Properties the code does not have, as predicates *)

(** Blob failures are isolated: with the record deleted, every snapshotted
    blob whose own deletion does not fail is gone, and so are the documents
    when their deletion does not fail. *)
Definition blob_failures_isolated : Prop :=
  forall B s u,
    req_user (req s) = Some u ->
    findAll_fault B = None -> destroy_fault B = None ->
    let w' := wld (snd (handle (delete_profile B) s)) in
    (forall b, In b (profile_blob u ++ picture_rows (id u) (articles (wld s))) ->
               deleteFile_fault B b = None -> ~ In b (blobs w')) /\
    (deleteMany_fault B = None ->
     forall v, In v (articlesviews w') -> view_authorId v <> id u).

(** Once the relational record is deleted the caller observes success. *)
Definition cleanup_failures_hidden : Prop :=
  forall B s u,
    req_user (req s) = Some u ->
    statusCode (res s) = 200 -> sent (res s) = None ->
    findAll_fault B = None -> destroy_fault B = None ->
    exists b, sent (res (snd (handle (delete_profile B) s))) = Some (200, b).

(** The answer to an uncaught error shows neither its message nor its stack. *)
Definition error_response_generic : Prop :=
  forall err s status b,
    sent (res s) = None ->
    sent (res (snd (error_middleware err s))) = Some (status, b) ->
    ~ leaks b err.

(** The lifetime is absolute: 48 hours after its creation a session is no
    longer accepted by the store, whatever requests were made in between. *)
Definition lifetime_absolute : Prop :=
  forall sid identity t0 times now,
    t0 + cookie_maxAge sessionConfig <= now ->
    store_get now sid
      (visits sessionConfig times sid (store_set sessionConfig t0 sid identity []))
    = None.

(** Every response carries the CSRF cookie. *)
Definition xsrf_cookie_on_every_response : Prop :=
  forall T B router s r,
    res s = fresh_res ->
    sent (res (snd (app T B router s))) = Some r ->
    exists t, In ("XSRF-TOKEN", t) (cookies (res (snd (app T B router s)))).

(** ** Concrete data *)

Definition healthy : backends :=
  mkBackends None None None None None (fun _ => None) None None None
             (fun mail => inl ("cus_" ++ mail)%string)
             (fun tok _ => inl ("card_" ++ tok)%string)
             "s3cr3t" "salt1" None (fun _ => 0%nat).

Definition toy_tokens : token_lib :=
  mkTokens (fun secret salt => (salt ++ "-" ++ secret)%string)
           (fun secret tok => String.eqb tok ("salt1-" ++ secret)%string
                              || String.eqb tok ("salt2-" ++ secret)%string).

Definition alice : user :=
  mkUser 7 "alice@example.org" (Some "avatars/alice.png") None None.

Definition bob : user :=
  mkUser 8 "bob@example.org" None (Some "cus_bob") None.

Definition world0 : world :=
  mkWorld [alice; bob]
          [mkArticle 1 7 (Some "articles/a1.png"); mkArticle 2 7 None;
           mkArticle 3 8 (Some "articles/b3.png")]
          ["avatars/alice.png"; "articles/a1.png"; "articles/b3.png"]
          [mkView 1 7; mkView 3 8]
          true [] [] [].

Definition delete_request : request :=
  mkReq DELETE ProfileRoot (Some "salt1-k") "" (mkSession (Some "k")) (Some alice).

Definition state0 : state := mkState delete_request fresh_res world0.

(** The response as a route handler finds it: the CSRF cookie is set. *)
Definition routed_res : response := mkRes 200 [("XSRF-TOKEN", "salt1-k")] None.

Definition routed_state0 : state := mkState delete_request routed_res world0.

Definition boom : error := mkError "getaddrinfo ENOTFOUND storage" "Error: at deleteFile".

(** The blob store rejects the deletion of the profile picture. *)
Definition avatar_fails : backends :=
  mkBackends None None None None None
             (fun u => if String.eqb u "avatars/alice.png" then Some boom else None)
             None None None
             (fun mail => inl ("cus_" ++ mail)%string)
             (fun tok _ => inl ("card_" ++ tok)%string)
             "s3cr3t" "salt1" None (fun _ => 0%nat).

(** The blob store rejects the deletion of one article picture. *)
Definition article_fails : backends :=
  mkBackends None None None None None
             (fun u => if String.eqb u "articles/a1.png" then Some boom else None)
             None None None
             (fun mail => inl ("cus_" ++ mail)%string)
             (fun tok _ => inl ("card_" ++ tok)%string)
             "s3cr3t" "salt1" None (fun _ => 0%nat).

(** Both article pictures of a batch fail: the first of the list later
    (time 2), the second sooner (time 1). *)
Definition late : error := mkError "E1: first in the list" "Error: at deleteFile".
Definition soon : error := mkError "E2: first in time" "Error: at deleteFile".

Definition two_fail : backends :=
  mkBackends None None None None None
             (fun u => if String.eqb u "articles/a1.png" then Some late
                       else if String.eqb u "articles/a2.png" then Some soon
                       else None)
             None None None
             (fun mail => inl ("cus_" ++ mail)%string)
             (fun tok _ => inl ("card_" ++ tok)%string)
             "s3cr3t" "salt1" None
             (fun u => if String.eqb u "articles/a1.png" then 2%nat else 1%nat).

(** The document store rejects the bulk deletion. *)
Definition mongo_fails : backends :=
  mkBackends None None None None None (fun _ => None)
             (Some (mkError "MongoNetworkError" "Error: at deleteMany"))
             None None
             (fun mail => inl ("cus_" ++ mail)%string)
             (fun tok _ => inl ("card_" ++ tok)%string)
             "s3cr3t" "salt1" None (fun _ => 0%nat).

(** Alice's record is already gone from the relational store. *)
Definition world_gone : world :=
  mkWorld [bob] (articles world0) (blobs world0) (articlesviews world0)
          true [] [] [].

(** A POST without CSRF token. *)
Definition forged_request : request :=
  mkReq POST OtherPath None "" (mkSession (Some "k")) (Some alice).

Definition forged_state : state := mkState forged_request fresh_res world0.

(** A DELETE of the profile with a token that is not the session's. *)
Definition mismatch_state : state :=
  mkState (mkReq DELETE ProfileRoot (Some "forged") "" (mkSession (Some "k"))
                 (Some alice))
          fresh_res world0.

(** Bob attaches a card: PUT api/v1/profile/card. *)
Definition card_state : state :=
  mkState (mkReq PUT ProfileCard (Some "salt1-k") "tok_visa"
                 (mkSession (Some "k")) (Some bob))
          fresh_res world0.

(** A session saved at time 1000 for identity 7. *)
Definition store0 : list stored_session := store_set sessionConfig 1000 "sid-1" 7 [].

Definition hour : Z := 3600 * 1000.

(** ** Reference descriptions for the remaining properties *)

(** Every step of the account deletion in front of the session teardown
    succeeds. *)
Definition cleanup_ok (B : backends) (u : user) (w : world) : bool :=
  match findAll_fault B, destroy_fault B, profile_fault B u,
        first_fault B (picture_rows (id u) (articles w)), deleteMany_fault B with
  | None, None, None, None, None => true
  | _, _, _, _, _ => false
  end.

(** The state a request is in once the stages in front of passport let it
    through: the CSRF cookie is set. *)
Definition with_cookie (T : token_lib) (B : backends) (k : string) (s : state) : state :=
  mkState (req s)
    (mkRes (statusCode (res s))
           (cookies (res s) ++ [("XSRF-TOKEN", tokens_create T k (tokens_salt B))])
           (sent (res s)))
    (wld s).

(** The handler the profile router runs for a protected route. *)
Definition protected_handler (B : backends) (rq : request) : option (M unit) :=
  match path rq, method rq with
  | ProfileRoot, DELETE => Some (delete_profile B)
  | ProfileCard, PUT => Some (put_card B)
  | _, _ => None
  end.

(** ** The picture route: PUT api/v1/profile/picture *)

Module Picture.

(** `User's ${id} picture was successfully updated` *)
Inductive info := PictureUpdated (uid : Z).

(** [{ data: { picture: req.user.picture } }] *)
Inductive reply := PictureData (p : nullable).

(** Calls made to the collaborators, in the order they are started. *)
Inductive call :=
  | Update (uid : Z) (p : url)
  | DeleteFile (u : url).

(** What the route reads and writes: [req.user], [req.file] (by its [url]),
    the [users] table, the blob store, the info log and the response. *)
Record pstate := mkP {
  instance : option user;
  file : option url;
  rows : list user;
  store : list url;
  log : list info;
  status : Z;
  answer : option (Z * reply);
  calls : list call
}.

Definition P (A : Type) := pstate -> result A * pstate.

Definition pret {A} (a : A) : P A := fun s => (Ok a, s).

Definition pthrow {A} (e : error) : P A := fun s => (Throw e, s).

Definition pbind {A C} (m : P A) (k : A -> P C) : P C :=
  fun s =>
    match m s with
    | (Ok a, s') => k a s'
    | (Throw e, s') => (Throw e, s')
    end.

Notation "'do' x <- m ; k" := (pbind m (fun x => k))
  (at level 10, x name, m at level 100, k at level 200).
Notation "'run' m ; k" := (pbind m (fun _ => k))
  (at level 10, m at level 100, k at level 200).

Definition started (c : call) (s : pstate) : pstate :=
  mkP (instance s) (file s) (rows s) (store s) (log s) (status s) (answer s)
      (calls s ++ [c]).

Definition pawait (fault : option error) : P unit :=
  match fault with
  | Some e => pthrow e
  | None => pret tt
  end.

(** Reading [req.user] and [req.file]: a [TypeError] when undefined. *)
Definition the_user : P user :=
  fun s => match instance s with
           | Some u => (Ok u, s)
           | None => (Throw type_error, s)
           end.

Definition the_file : P url :=
  fun s => match file s with
           | Some f => (Ok f, s)
           | None => (Throw type_error, s)
           end.

Definition set_picture (p : url) (u : user) : user :=
  mkUser (id u) (email u) (Some p) (stripe_customer_id u) (stripe_card_id u).

Definition picture_row (uid : Z) (p : url) (l : list user) : list user :=
  map (fun r => if id r =? uid then set_picture p r else r) l.

(** [req.user.update({ picture })]: the instance takes the picture, then
    the row is saved. *)
Definition user_update (B : backends) (u : user) (p : url) : P user :=
  fun s =>
    let s1 := mkP (Some (set_picture p u)) (file s) (rows s) (store s) (log s)
                  (status s) (answer s) (calls s ++ [Update (id u) p]) in
    match update_fault B with
    | Some e => (Throw e, s1)
    | None => (Ok (set_picture p u),
               mkP (instance s1) (file s1) (picture_row (id u) p (rows s1))
                   (store s1) (log s1) (status s1) (answer s1) (calls s1))
    end.

Definition infoLogger_log (i : info) : P unit :=
  fun s => (Ok tt, mkP (instance s) (file s) (rows s) (store s) (log s ++ [i])
                       (status s) (answer s) (calls s)).

Definition deleteFile (B : backends) (u : url) : P unit :=
  fun s =>
    let s1 := started (DeleteFile u) s in
    match deleteFile_fault B u with
    | Some e => (Throw e, s1)
    | None => (Ok tt, mkP (instance s1) (file s1) (rows s1)
                          (remove_blob u (store s1)) (log s1) (status s1)
                          (answer s1) (calls s1))
    end.

Definition res_json (r : reply) : P unit :=
  fun s =>
    match answer s with
    | Some _ => (Throw headers_sent, s)
    | None => (Ok tt, mkP (instance s) (file s) (rows s) (store s) (log s)
                          (status s) (Some (status s, r)) (calls s))
    end.

(** The handler behind [isLoggedIn] and [upload.single('picture')]. *)
Definition put_picture (B : backends) : P unit :=
  do u <- the_user;
  do url <- the_file;
  let userData := url in
  let oldPicture := picture u in
  (* MySQL operations: update user *)
  do u' <- user_update B u userData;
  (* logging success *)
  run infoLogger_log (PictureUpdated (id u));
  (* delete old profile picture *)
  run match oldPicture with
      | Some p => if truthy oldPicture then deleteFile B p else pret tt
      | None => pret tt
      end;
  res_json (PictureData (picture u')).

(** A request of user [u] with upload [f], on a store that holds Alice's
    picture and the new upload. *)
Definition upload_state (u : user) (f : option url) : pstate :=
  mkP (Some u) f [alice; bob]
      ["avatars/alice.png"; "avatars/new.png"] [] 200 None [].

End Picture.

(** ** Start-up: [startServer] of the bootstrap file *)

Module Boot.

Inductive step :=
  | MongoConnect                              (* dbMongo.connect() *)
  | MysqlAuthenticate                         (* dbMysql.authenticate() *)
  | Info (label message : string)             (* infoLogger.log *)
  | Listen (port : string)                    (* app.listen(port, ...) *)
  | ErrorLogged (message metadata : string)   (* errorLogger.log *)
  | LoggerEnd                                 (* errorLogger.end *)
  | Uncaught                                  (* an 'error' event without listener *)
  | Exit (code : Z).                          (* the process ends with that status *)

(** What start-up meets: the outcome of the two connections, the port, whether
    the server comes to listen on it ([bound]; it does not when the port is
    taken), and the stack of an [Error] made with a given message. *)
Record env := mkEnv {
  mongo : option error;
  mysql : option error;
  port : string;
  bound : bool;
  stack_of : string -> string
}.

Definition new_Error (E : env) (msg : string) : error := mkError msg (stack_of E msg).

Definition startServer (E : env) : result unit * list step :=
  match mongo E with
  | Some err =>
      (Throw (new_Error E ("Unable to connect to MongoDB database ("
                           ++ message err ++ ")")%string),
       [MongoConnect])
  | None =>
      match mysql E with
      | Some err =>
          (Throw (new_Error E ("Unable to connect to MySQL database ("
                               ++ message err ++ ")")%string),
           [MongoConnect; MysqlAuthenticate])
      | None =>
          (Ok tt,
           [MongoConnect; MysqlAuthenticate; Info "mysql" "Connected to MySQL";
            Listen (port E)]
           ++ (if bound E
               then [Info "server" ("Server is running on port " ++ port E)%string]
               else [Uncaught; Exit 1]))
      end
  end.

(** [startServer().catch(...)]: the last statement of the file.  A server
    that cannot listen emits an 'error' event nobody listens to: the process
    ends with status 1 without passing through the handler of [catch]. *)
Definition main (E : env) : list step :=
  match startServer E with
  | (Ok _, t) => t
  | (Throw err, t) => t ++ [ErrorLogged (message err) (stack err); LoggerEnd; Exit 1]
  end.

Definition is_listen (x : step) : bool :=
  match x with Listen _ => true | _ => false end.

Definition is_info (x : step) : bool :=
  match x with Info _ _ => true | _ => false end.



Definition plain_stack (msg : string) : string := ("Error: " ++ msg)%string.

End Boot.

(** ** More concrete data *)

(** The session teardown fails. *)
Definition logout_fails : backends :=
  mkBackends None None None None None (fun _ => None) None (Some boom) None
             (fun mail => inl ("cus_" ++ mail)%string)
             (fun tok _ => inl ("card_" ++ tok)%string)
             "s3cr3t" "salt1" None (fun _ => 0%nat).

(** Passport cannot load the user. *)
Definition passport_fails : backends :=
  mkBackends None None (Some boom) None None (fun _ => None) None None None
             (fun mail => inl ("cus_" ++ mail)%string)
             (fun tok _ => inl ("card_" ++ tok)%string)
             "s3cr3t" "salt1" None (fun _ => 0%nat).

(** The relational store rejects updates. *)
Definition update_fails : backends :=
  mkBackends None None None None None (fun _ => None) None None (Some boom)
             (fun mail => inl ("cus_" ++ mail)%string)
             (fun tok _ => inl ("card_" ++ tok)%string)
             "s3cr3t" "salt1" None (fun _ => 0%nat).

(** The payment provider creates customers but rejects the card. *)
Definition card_declined : backends :=
  mkBackends None None None None None (fun _ => None) None None None
             (fun mail => inl ("cus_" ++ mail)%string)
             (fun _ _ => inr boom)
             "s3cr3t" "salt1" None (fun _ => 0%nat).

(** The front end cannot be reached. *)
Definition frontend_down : backends :=
  mkBackends None None None None None (fun _ => None) None None None
             (fun mail => inl ("cus_" ++ mail)%string)
             (fun tok _ => inl ("card_" ++ tok)%string)
             "s3cr3t" "salt1" (Some boom) (fun _ => 0%nat).

(** Carol's profile picture and the picture of her article are empty strings. *)
Definition carol : user := mkUser 9 "carol@example.org" (Some "") None None.

Definition carol_state : state :=
  mkState (mkReq DELETE ProfileRoot (Some "salt1-k") "" (mkSession (Some "k"))
                 (Some carol))
          fresh_res
          (mkWorld [carol] [mkArticle 4 9 (Some "")] [] [] true [] [] []).

(** A GET of the profile path. *)
Definition get_state : state :=
  mkState (mkReq GET ProfileRoot None "" (mkSession (Some "k")) (Some alice))
          fresh_res world0.

(** A request whose response already went out. *)
Definition answered_state : state :=
  mkState delete_request (mkRes 200 [] (Some (200, BLoggedOut))) world0.

(** Alice, who has no customer reference, attaches a card. *)
Definition alice_card_state : state :=
  mkState (mkReq PUT ProfileCard (Some "salt1-k") "tok_visa"
                 (mkSession (Some "k")) (Some alice))
          fresh_res world0.

(** MongoDB connects, MySQL does not. *)
Definition mysql_down : Boot.env :=
  Boot.mkEnv None (Some boom) "8080" true Boot.plain_stack.

(** * Properties *)

(** ** One step at a time *)

Lemma bind_eq {A C} (m : M A) (k : A -> M C) s :
  bind m k s = match m s with
               | (Ok a, s') => k a s'
               | (Throw e, s') => (Throw e, s')
               end.
Proof. reflexivity. Qed.

Lemma the_user_run s u : req_user (req s) = Some u -> the_user s = (Ok u, s).
Proof. intros H. unfold the_user, bind, get, ret. rewrite H. reflexivity. Qed.

Lemma the_user_missing s : req_user (req s) = None -> the_user s = (Throw type_error, s).
Proof. intros H. unfold the_user, bind, get, throw. rewrite H. reflexivity. Qed.

Lemma findAll_run B uid s :
  Article_findAll B uid s =
  (match findAll_fault B with
   | Some e => Throw e
   | None => Ok (map mkRow (picture_rows uid (articles (wld s))))
   end, logged (EvFindAll uid) s).
Proof.
  unfold Article_findAll, emit, bind, await, modify_world, get, ret, throw, logged.
  destruct (findAll_fault B); reflexivity.
Qed.

Lemma row_pictures l : map (fun i => row_picture i) (map mkRow l) = l.
Proof. rewrite map_map. simpl. apply map_id. Qed.

Lemma destroy_run B u s :
  user_destroy B u s =
  match destroy_fault B with
  | Some e => (Throw e, logged (EvDestroy (id u)) s)
  | None => (Ok u, mkState (req s) (res s)
                     (set_users (delete_row (id u) (users (wld s)))
                                (log_event (EvDestroy (id u)) (wld s))))
  end.
Proof.
  unfold user_destroy, emit, bind, await, modify_world, ret, throw, logged.
  destruct (destroy_fault B); reflexivity.
Qed.

Lemma deleteFile_run B u s :
  deleteFile B u s =
  (match deleteFile_fault B u with Some e => Throw e | None => Ok tt end,
   swept B [u] s).
Proof.
  unfold deleteFile, emit, bind, await, modify_world, swept; simpl.
  destruct (deleteFile_fault B u); reflexivity.
Qed.

Lemma swept_cons B u l s : swept B l (swept B [u] s) = swept B (u :: l) s.
Proof. unfold swept; simpl. rewrite <- app_assoc. reflexivity. Qed.

Lemma swept_nil B s : swept B [] s = s.
Proof.
  destruct s as [rq rs w]; destruct w; unfold swept; simpl.
  rewrite app_nil_r. reflexivity.
Qed.

(** [Promise.all] over the blob deletions: every deletion is attempted. *)
Lemma settle_all_deleteFile B l : forall s,
  settle_all (map (fun url => (deleteFile_settles B url, deleteFile B url)) l) s =
  (match first_rejection B l with
   | Some (t, e) => Rejected t e
   | None => Fulfilled (map (fun _ => tt) l)
   end, swept B l s).
Proof.
  induction l as [|u l IH]; intros s.
  - simpl. rewrite swept_nil. reflexivity.
  - simpl. rewrite deleteFile_run, IH, swept_cons.
    destruct (deleteFile_fault B u), (first_rejection B l) as [[t' e']|];
      try reflexivity.
    destruct (t' <? deleteFile_settles B u)%nat; reflexivity.
Qed.

Lemma promise_all_deleteFile B l s :
  promise_all (map (fun url => (deleteFile_settles B url, deleteFile B url)) l) s =
  (match first_fault B l with
   | Some e => Throw e
   | None => Ok (map (fun _ => tt) l)
   end, swept B l s).
Proof.
  unfold promise_all, first_fault. rewrite settle_all_deleteFile.
  destruct (first_rejection B l) as [[t e]|]; reflexivity.
Qed.

Lemma batch_run B l s :
  when (negb (Nat.eqb (List.length l) 0))
       (promise_all (map (fun url => (deleteFile_settles B url, deleteFile B url)) l)
        ;; ret tt) s =
  (match first_fault B l with Some e => Throw e | None => Ok tt end, swept B l s).
Proof.
  destruct l as [|u l].
  - simpl. unfold ret. rewrite swept_nil. reflexivity.
  - cbn [List.length Nat.eqb negb when]. unfold bind.
    rewrite promise_all_deleteFile.
    destruct (first_fault B (u :: l)); reflexivity.
Qed.

Lemma first_fault_one B p :
  first_fault B [p] = deleteFile_fault B p.
Proof.
  unfold first_fault. simpl. destruct (deleteFile_fault B p); reflexivity.
Qed.

Lemma profile_step_run B u s :
  match picture u with
  | Some p => when (truthy (picture u)) (deleteFile B p)
  | None => ret tt
  end s =
  (match profile_fault B u with Some e => Throw e | None => Ok tt end,
   swept B (profile_blob u) s).
Proof.
  unfold profile_fault, profile_blob.
  destruct (picture u) as [p|] eqn:E.
  - destruct (truthy (Some p)); simpl.
    + rewrite deleteFile_run, first_fault_one.
      destruct (deleteFile_fault B p); reflexivity.
    + unfold ret. rewrite swept_nil. reflexivity.
  - simpl. unfold ret. rewrite swept_nil. reflexivity.
Qed.

Lemma deleteMany_run B uid s :
  ArticlesView_deleteMany B uid s =
  match deleteMany_fault B with
  | Some e => (Throw e, logged (EvDeleteMany uid) s)
  | None => (Ok tt, mkState (req s) (res s)
                      (set_views (delete_views uid (articlesviews (wld s)))
                                 (log_event (EvDeleteMany uid) (wld s))))
  end.
Proof.
  unfold ArticlesView_deleteMany, emit, bind, await, modify_world, ret, throw, logged.
  destruct (deleteMany_fault B); reflexivity.
Qed.

Lemma logout_run B s :
  authService_logout B s =
  match logout_fault B with
  | Some e => (Throw e, logged EvLogout s)
  | None =>
      match sent (res s) with
      | Some _ => (Throw headers_sent,
                   mkState (req s) (res s)
                     (set_session_alive false (log_event EvLogout (wld s))))
      | None => (Ok tt,
                 mkState (req s)
                   (mkRes (statusCode (res s)) (cookies (res s))
                          (Some (statusCode (res s), BLoggedOut)))
                   (set_session_alive false (log_event EvLogout (wld s))))
      end
  end.
Proof.
  unfold authService_logout, res_json, res_send, emit, bind, await,
    modify_world, modify_res, get, ret, throw, logged.
  destruct (logout_fault B); [reflexivity|]. simpl.
  destruct (sent (res s)); reflexivity.
Qed.

Lemma infoLogger_run i s :
  infoLogger_log i s = (Ok tt, mkState (req s) (res s) (add_info i (wld s))).
Proof. reflexivity. Qed.

(** Walks through [delete_profile] step by step, splitting on the outcome of
    each collaborator call. *)
Ltac delete_walk B u s Hu :=
  unfold delete_profile;
  rewrite bind_eq, (the_user_run s u Hu);
  rewrite bind_eq, findAll_run;
  destruct (findAll_fault B) as [?e|] eqn:?Hfind;
  [ | rewrite row_pictures, bind_eq, destroy_run;
      destruct (destroy_fault B) as [?e|] eqn:?Hdestroy;
      [ | rewrite bind_eq, profile_step_run;
          destruct (profile_fault B u) as [?e|] eqn:?Hprofile;
          [ | rewrite bind_eq, batch_run;
              destruct (first_fault B (picture_rows (id u) (articles (wld s))))
                as [?e|] eqn:?Hbatch;
              [ | rewrite bind_eq, deleteMany_run;
                  destruct (deleteMany_fault B) as [?e|] eqn:?Hmany;
                  [ | rewrite bind_eq, infoLogger_run, logout_run;
                      destruct (logout_fault B) as [?e|] eqn:?Hlogout ] ] ] ] ].

(** Of two failing deletions of a batch, the one that settles first is the
    one the batch rejects with, and both deletions were attempted. *)
Example batch_rejects_first_in_time :
  batch_result_of
    (promise_all
       (map (fun url => (deleteFile_settles two_fail url, deleteFile two_fail url))
            ["articles/a1.png"; "articles/a2.png"])
       state0)
  = (Some soon, [EvDeleteFile "articles/a1.png"; EvDeleteFile "articles/a2.png"]).
Proof. reflexivity. Qed.

(** ** Blob store after a sweep *)

Lemma remove_blob_subset u x bl : In x (remove_blob u bl) -> In x bl.
Proof. unfold remove_blob. intros H. apply filter_In in H. tauto. Qed.

Lemma remove_blob_gone u bl : ~ In u (remove_blob u bl).
Proof.
  unfold remove_blob. intros H. apply filter_In in H. destruct H as [_ H].
  rewrite String.eqb_refl in H. discriminate.
Qed.

Lemma sweep_subset B l : forall bl x, In x (sweep B l bl) -> In x bl.
Proof.
  induction l as [|u l IH]; intros bl x H; simpl in H; [assumption|].
  apply IH in H. destruct (deleteFile_fault B u); [assumption|].
  eapply remove_blob_subset; eassumption.
Qed.

Lemma sweep_removes B l : forall bl a,
  In a l -> deleteFile_fault B a = None -> ~ In a (sweep B l bl).
Proof.
  induction l as [|u l IH]; intros bl a Hin Hok; [contradiction|].
  simpl. destruct Hin as [->|Hin].
  - rewrite Hok. intros H. apply sweep_subset in H.
    exact (remove_blob_gone _ _ H).
  - apply IH; assumption.
Qed.

Lemma sweep_profile_fault B u e bl :
  profile_fault B u = Some e -> sweep B (profile_blob u) bl = bl.
Proof.
  unfold profile_fault. destruct (profile_blob u) as [|p [|q l]] eqn:E.
  - discriminate.
  - rewrite first_fault_one. simpl.
    destruct (deleteFile_fault B p); [reflexivity | discriminate].
  - unfold profile_blob in E. destruct (picture u); [|discriminate].
    destruct (truthy (Some s)); discriminate.
Qed.

Lemma delete_row_gone uid l row : In row (delete_row uid l) -> id row <> uid.
Proof.
  unfold delete_row. intros H. apply filter_In in H. destruct H as [_ H].
  apply negb_true_iff, Z.eqb_neq in H. exact H.
Qed.

Lemma delete_row_absent uid l :
  (forall row, In row l -> id row <> uid) -> delete_row uid l = l.
Proof.
  intros H. unfold delete_row. induction l as [|r l IH]; [reflexivity|].
  simpl. destruct (Z.eqb_spec (id r) uid) as [E|E].
  - exfalso. exact (H r (or_introl eq_refl) E).
  - simpl. f_equal. apply IH. intros row Hin. apply H. right. exact Hin.
Qed.

(** ** Order of the deletion steps *)

(** C4: in every run of the account deletion the collaborator calls are
    made in the order "enumerate, delete the record, delete the snapshotted
    blobs (profile picture, then article pictures), bulk-delete the
    documents, tear the session down", each step being started exactly when
    every step in front of it succeeded: the enumeration is the first call,
    nothing is deleted when it fails, the calls of a run are an initial
    segment of that plan, and a run in which no step in front of the
    teardown fails makes every call of the plan. *)
Theorem delete_profile_order B s u :
  req_user (req s) = Some u ->
  let t' := trace (wld (snd (delete_profile B s))) in
  t' = trace (wld s) ++ delete_calls B u (wld s) /\
  (exists evs rest,
     t' = trace (wld s) ++ EvFindAll (id u) :: evs /\
     deletion_plan u (wld s) = EvFindAll (id u) :: evs ++ rest /\
     (findAll_fault B <> None -> evs = []) /\
     (fst (delete_profile B s) = Ok tt -> rest = [])) /\
  (cleanup_fault B u (wld s) = None ->
   t' = trace (wld s) ++ deletion_plan u (wld s)).
Proof.
  intros Hu t'. subst t'. unfold deletion_plan, delete_calls, cleanup_fault.
  set (pics := profile_blob u).
  delete_walk B u s Hu; fold pics; simpl;
    try match goal with
        | |- context [match sent (res s) with _ => _ end] =>
            destruct (sent (res s)); simpl
        end;
    rewrite <- ?app_assoc, ?map_app, <- ?app_assoc, ?app_nil_r; simpl;
    (split; [reflexivity|]); (split; [|congruence]).
  all: do 2 eexists; (split; [reflexivity|]);
       (split; [rewrite <- ?app_assoc; simpl; rewrite <- ?app_assoc; simpl;
                try reflexivity|]);
       split; congruence.
Qed.

Lemma delete_profile_order_witness :
  let t' := trace (wld (snd (delete_profile healthy state0))) in
  t' = trace (wld state0) ++ delete_calls healthy alice (wld state0) /\
  (exists evs rest,
     t' = trace (wld state0) ++ EvFindAll (id alice) :: evs /\
     deletion_plan alice (wld state0) = EvFindAll (id alice) :: evs ++ rest /\
     (findAll_fault healthy <> None -> evs = []) /\
     (fst (delete_profile healthy state0) = Ok tt -> rest = [])) /\
  (cleanup_fault healthy alice (wld state0) = None ->
   t' = trace (wld state0) ++ deletion_plan alice (wld state0)).
Proof. exact (delete_profile_order healthy state0 alice eq_refl). Defined.

(** ** Blob failures during the account deletion *)

(** C1, as stated, fails: when the blob store rejects the deletion of the
    profile picture, an article picture whose own deletion would succeed is
    still in the blob store after the run. *)
Lemma blob_failure_not_isolated : ~ blob_failures_isolated.
Proof.
  intros H.
  destruct (H avatar_fails state0 alice eq_refl eq_refl eq_refl) as [Hblobs _].
  apply (Hblobs "articles/a1.png").
  - vm_compute. tauto.
  - reflexivity.
  - vm_compute. tauto.
Qed.

(** C1, amended: once enumeration and record deletion succeeded the
    relational record stays deleted whatever happens next.  A failure
    deleting the profile picture is propagated at once: no article picture
    and no document is touched.  Within the batch of article pictures every
    deletion is attempted and every picture whose own deletion succeeds is
    removed even when another one fails, but a failure in the batch is
    propagated (not collected) and the documents are left as they were. *)
Theorem delete_profile_blob_failure B s u :
  req_user (req s) = Some u ->
  findAll_fault B = None -> destroy_fault B = None ->
  let r := delete_profile B s in
  let rows := picture_rows (id u) (articles (wld s)) in
  (forall row, In row (users (wld (snd r))) -> id row <> id u) /\
  (forall e, profile_fault B u = Some e ->
     fst r = Throw e /\
     trace (wld (snd r))
     = trace (wld s) ++ [EvFindAll (id u); EvDestroy (id u)]
                     ++ map EvDeleteFile (profile_blob u) /\
     blobs (wld (snd r)) = blobs (wld s) /\
     articlesviews (wld (snd r)) = articlesviews (wld s)) /\
  (profile_fault B u = None ->
     (forall a, In a rows -> In (EvDeleteFile a) (trace (wld (snd r)))) /\
     (forall a, In a rows -> deleteFile_fault B a = None ->
                ~ In a (blobs (wld (snd r)))) /\
     (forall e, first_fault B rows = Some e ->
                fst r = Throw e /\
                articlesviews (wld (snd r)) = articlesviews (wld s))).
Proof.
  intros Hu Hf Hd r rows. subst r rows.
  assert (Hev : forall a (t : list event) l tl, In a l -> In (EvDeleteFile a) ((t ++ map EvDeleteFile l) ++ tl)).
  { intros a t l tl Hin. apply in_or_app. left. apply in_or_app. right.
    apply in_map. exact Hin. }
  delete_walk B u s Hu; try congruence; simpl.
  - (* the profile picture cannot be deleted *)
    split; [intros row; apply delete_row_gone|].
    split; [|discriminate].
    intros e' He'. injection He' as <-.
    rewrite (sweep_profile_fault B u e _ Hprofile), <- !app_assoc. simpl. auto.
  - (* a picture of the batch cannot be deleted *)
    split; [intros row; apply delete_row_gone|].
    split; [discriminate|]. intros _.
    split; [intros a Hin; rewrite <- (app_nil_r (_ ++ map _ _)); apply Hev; exact Hin|].
    split; [intros a Hin Hok; apply sweep_removes; assumption|].
    intros e' He'. injection He' as <-. auto.
  - split; [intros row; apply delete_row_gone|].
    split; [discriminate|]. intros _.
    split; [intros a Hin; apply Hev; exact Hin|].
    split; [intros a Hin Hok; apply sweep_removes; assumption|].
    discriminate.
  - split; [intros row; apply delete_row_gone|].
    split; [discriminate|]. intros _.
    split; [intros a Hin; rewrite <- app_assoc; apply Hev; exact Hin|].
    split; [intros a Hin Hok; apply sweep_removes; assumption|].
    discriminate.
  - destruct (sent (res s)); simpl;
    (split; [intros row; apply delete_row_gone|]);
    (split; [discriminate|]); intros _;
    (split; [intros a Hin; rewrite <- app_assoc; apply Hev; exact Hin|]);
    (split; [intros a Hin Hok; apply sweep_removes; assumption|]);
    discriminate.
Qed.

Lemma delete_profile_blob_failure_witness :
  let r := delete_profile article_fails state0 in
  let rows := picture_rows (id alice) (articles (wld state0)) in
  (forall row, In row (users (wld (snd r))) -> id row <> id alice) /\
  (forall e, profile_fault article_fails alice = Some e ->
     fst r = Throw e /\
     trace (wld (snd r))
     = trace (wld state0) ++ [EvFindAll (id alice); EvDestroy (id alice)]
                          ++ map EvDeleteFile (profile_blob alice) /\
     blobs (wld (snd r)) = blobs (wld state0) /\
     articlesviews (wld (snd r)) = articlesviews (wld state0)) /\
  (profile_fault article_fails alice = None ->
     (forall a, In a rows -> In (EvDeleteFile a) (trace (wld (snd r)))) /\
     (forall a, In a rows -> deleteFile_fault article_fails a = None ->
                ~ In a (blobs (wld (snd r)))) /\
     (forall e, first_fault article_fails rows = Some e ->
                fst r = Throw e /\
                articlesviews (wld (snd r)) = articlesviews (wld state0))).
Proof.
  exact (delete_profile_blob_failure article_fails state0 alice
           eq_refl eq_refl eq_refl).
Defined.

(** ** What the caller observes *)

Lemma error_middleware_run err s :
  sent (res s) = None ->
  error_middleware err s =
  (Ok tt,
   mkState (req s)
     (if statusCode (res s) =? 200
      then mkRes 500 (cookies (res s)) (Some (500, BError (message err)))
      else res s)
     (add_error (mkLog "error" (message err) (stack err) "express") (wld s))).
Proof.
  intros Hs. unfold error_middleware, bind, get, when, res_status, res_send,
    errorLogger_log, modify_res, modify_world, get, ret, bind; simpl.
  destruct (statusCode (res s) =? 200); simpl.
  - rewrite Hs. reflexivity.
  - destruct s as [rq rs w]; destruct rs; reflexivity.
Qed.

(** C2, as stated, fails: with the relational record deleted, a failure of
    the bulk document deletion reaches the caller as a 500 response. *)
Lemma cleanup_failure_reported : ~ cleanup_failures_hidden.
Proof.
  intros H.
  destruct (H mongo_fails routed_state0 alice eq_refl eq_refl eq_refl eq_refl eq_refl)
    as [b Hb].
  vm_compute in Hb. discriminate.
Qed.

Lemma delete_calls_stop B u w e :
  cleanup_fault B u w = Some e ->
  ~ In EvLogout (delete_calls B u w) /\
  exists rest, rest <> [] /\ deletion_plan u w = delete_calls B u w ++ rest.
Proof.
  unfold cleanup_fault, delete_calls, deletion_plan. intros Hf.
  assert (Hno : forall l tl, ~ In EvLogout tl ->
                             ~ In EvLogout (map EvDeleteFile l ++ tl)).
  { intros l tl Htl H. apply in_app_or in H. destruct H as [H|H]; [|tauto].
    apply in_map_iff in H. destruct H as [x [Hx _]]. discriminate. }
  destruct (findAll_fault B).
  { split; [intros [H|[]]; discriminate|]. eexists. split; [|reflexivity].
    discriminate. }
  destruct (destroy_fault B).
  { split; [intros [H|[H|[]]]; discriminate|]. eexists. split; [|reflexivity].
    intros H. apply app_eq_nil in H. destruct H as [_ H]. discriminate. }
  destruct (profile_fault B u).
  { split.
    - intros [H|[H|H]]; try discriminate. revert H. apply Hno. intros [].
    - exists (map EvDeleteFile (picture_rows (id u) (articles w))
              ++ [EvDeleteMany (id u); EvLogout]).
      split.
      + intros H. apply app_eq_nil in H. destruct H as [_ H]. discriminate.
      + simpl. rewrite map_app, app_nil_r, <- app_assoc. reflexivity. }
  destruct (first_fault B (picture_rows (id u) (articles w))).
  { split.
    - intros [H|[H|H]]; try discriminate. revert H. apply Hno, Hno. intros [].
    - exists [EvDeleteMany (id u); EvLogout]. split; [discriminate|].
      simpl. rewrite map_app, app_nil_r, <- app_assoc. reflexivity. }
  destruct (deleteMany_fault B); [|discriminate].
  split.
  - intros [H|[H|H]]; try discriminate. revert H. apply Hno, Hno.
    intros [H|[]]; discriminate.
  - exists [EvLogout]. split; [discriminate|].
    simpl. rewrite map_app, <- !app_assoc. reflexivity.
Qed.

(** C2, amended: for a run of the account deletion on a response whose status
    code is still 200 and that has not been sent, the first failing step
    among enumeration, record deletion, blob deletions and document deletion
    aborts the operation: the calls made end with the failing step, the
    steps that remain (the session teardown among them) are not started,
    and the failure is reported to the caller as a 500 response carrying
    the error's message, with one entry written to the error log.  This
    holds for failures after the record deletion as for those before it.  A
    failure of the record deletion leaves the relational store as it was. *)
Theorem delete_profile_failure_report B s u e :
  req_user (req s) = Some u ->
  statusCode (res s) = 200 -> sent (res s) = None ->
  cleanup_fault B u (wld s) = Some e ->
  let s' := snd (handle (delete_profile B) s) in
  sent (res s') = Some (500, BError (message e)) /\
  error_log (wld s')
  = error_log (wld s) ++ [mkLog "error" (message e) (stack e) "express"] /\
  trace (wld s') = trace (wld s) ++ delete_calls B u (wld s) /\
  ~ In EvLogout (delete_calls B u (wld s)) /\
  (exists rest, rest <> [] /\
                deletion_plan u (wld s) = delete_calls B u (wld s) ++ rest) /\
  session_alive (wld s') = session_alive (wld s) /\
  info_log (wld s') = info_log (wld s) /\
  (forall e', destroy_fault B = Some e' -> users (wld s') = users (wld s)).
Proof.
  intros Hu Hst Hs Hf s'. subst s'.
  destruct (delete_calls_stop B u (wld s) e Hf) as [Hno Hrest].
  assert (H : sent (res (snd (handle (delete_profile B) s)))
              = Some (500, BError (message e)) /\
              error_log (wld (snd (handle (delete_profile B) s)))
              = error_log (wld s)
                ++ [mkLog "error" (message e) (stack e) "express"] /\
              trace (wld (snd (handle (delete_profile B) s)))
              = trace (wld s) ++ delete_calls B u (wld s) /\
              session_alive (wld (snd (handle (delete_profile B) s)))
              = session_alive (wld s) /\
              info_log (wld (snd (handle (delete_profile B) s)))
              = info_log (wld s) /\
              (forall e', destroy_fault B = Some e' ->
                          users (wld (snd (handle (delete_profile B) s)))
                          = users (wld s))).
  { unfold handle. unfold cleanup_fault in Hf. unfold delete_calls.
    delete_walk B u s Hu; try discriminate;
      rewrite error_middleware_run by (simpl; exact Hs);
      simpl; rewrite Hst; simpl;
      injection Hf as <-;
      rewrite <- ?app_assoc, ?app_nil_r; simpl;
      repeat split; auto; congruence. }
  destruct H as (H1 & H2 & H3 & H4 & H5 & H6).
  split; [exact H1|]. split; [exact H2|]. split; [exact H3|].
  split; [exact Hno|]. split; [exact Hrest|].
  split; [exact H4|]. split; [exact H5|exact H6].
Qed.

Lemma delete_profile_failure_report_witness :
  let s' := snd (handle (delete_profile mongo_fails) routed_state0) in
  sent (res s') = Some (500, BError "MongoNetworkError") /\
  error_log (wld s')
  = error_log (wld routed_state0)
    ++ [mkLog "error" "MongoNetworkError" "Error: at deleteMany" "express"] /\
  trace (wld s')
  = trace (wld routed_state0) ++ delete_calls mongo_fails alice (wld routed_state0) /\
  ~ In EvLogout (delete_calls mongo_fails alice (wld routed_state0)) /\
  (exists rest, rest <> [] /\
                deletion_plan alice (wld routed_state0)
                = delete_calls mongo_fails alice (wld routed_state0) ++ rest) /\
  session_alive (wld s') = session_alive (wld routed_state0) /\
  info_log (wld s') = info_log (wld routed_state0) /\
  (forall e', destroy_fault mongo_fails = Some e' ->
              users (wld s') = users (wld routed_state0)).
Proof.
  exact (delete_profile_failure_report mongo_fails routed_state0 alice
           (mkError "MongoNetworkError" "Error: at deleteMany")
           eq_refl eq_refl eq_refl eq_refl).
Defined.

(** C3, as stated, fails: the body of the 500 response is the error's own
    message. *)
Lemma error_response_leaks_message : ~ error_response_generic.
Proof.
  intros H.
  apply (H boom state0 500 (BError (message boom)) eq_refl eq_refl).
  simpl. left. reflexivity.
Qed.

(** C3, amended: for an error that reaches the error middleware before any
    response went out, an entry with the message and the stack is written to
    the error log; when the status code is still 200 the caller receives
    status 500 with the error's message as body (the stack is not part of
    it), otherwise the response is left untouched. *)
Theorem error_middleware_response err s :
  sent (res s) = None ->
  let r := error_middleware err s in
  fst r = Ok tt /\
  error_log (wld (snd r))
  = error_log (wld s) ++ [mkLog "error" (message err) (stack err) "express"] /\
  (statusCode (res s) = 200 ->
   sent (res (snd r)) = Some (500, BError (message err))) /\
  (statusCode (res s) <> 200 -> res (snd r) = res s).
Proof.
  intros Hs. simpl. rewrite (error_middleware_run err s Hs). simpl.
  repeat split.
  - intros H. rewrite H. reflexivity.
  - intros H. apply Z.eqb_neq in H. rewrite H. reflexivity.
Qed.

Lemma error_middleware_response_witness :
  let r := error_middleware boom state0 in
  fst r = Ok tt /\
  error_log (wld (snd r))
  = error_log (wld state0) ++ [mkLog "error" (message boom) (stack boom) "express"] /\
  (statusCode (res state0) = 200 ->
   sent (res (snd r)) = Some (500, BError (message boom))) /\
  (statusCode (res state0) <> 200 -> res (snd r) = res state0).
Proof. exact (error_middleware_response boom state0 eq_refl). Defined.

(** ** Running the deletion again *)

(** C6: when the relational record is already absent at the record-deletion
    step and no collaborator reports a fault, the run is a success: the whole
    plan is carried out, the caller receives the 200 answer of the session
    teardown, nothing is written to the error log and the relational store
    is unchanged. *)
Theorem delete_profile_rerun B s u :
  req_user (req s) = Some u ->
  statusCode (res s) = 200 -> sent (res s) = None ->
  (forall row, In row (users (wld s)) -> id row <> id u) ->
  delete_fault B u (wld s) = None ->
  let r := handle (delete_profile B) s in
  fst r = Ok tt /\
  sent (res (snd r)) = Some (200, BLoggedOut) /\
  users (wld (snd r)) = users (wld s) /\
  error_log (wld (snd r)) = error_log (wld s) /\
  trace (wld (snd r)) = trace (wld s) ++ deletion_plan u (wld s).
Proof.
  intros Hu Hst Hs Habsent Hok. unfold handle, delete_fault in *.
  delete_walk B u s Hu; try discriminate.
  simpl. rewrite Hs, Hst. simpl.
  rewrite (delete_row_absent _ _ Habsent).
  repeat split. unfold deletion_plan.
  rewrite <- !app_assoc, map_app, <- !app_assoc. reflexivity.
Qed.

Lemma delete_profile_rerun_witness :
  let r := handle (delete_profile healthy)
                  (mkState delete_request routed_res world_gone) in
  fst r = Ok tt /\
  sent (res (snd r)) = Some (200, BLoggedOut) /\
  users (wld (snd r)) = users world_gone /\
  error_log (wld (snd r)) = error_log world_gone /\
  trace (wld (snd r)) = trace world_gone ++ deletion_plan alice world_gone.
Proof.
  apply (delete_profile_rerun healthy
           (mkState delete_request routed_res world_gone) alice);
    try reflexivity.
  intros row Hin. simpl in Hin. destruct Hin as [<-|[]]. discriminate.
Defined.

(** Splits on the innermost scrutinee of the goal. *)
Ltac split_match :=
  match goal with
  | |- context [match ?x with _ => _ end] =>
      lazymatch x with
      | context [match _ with _ => _ end] => fail
      | _ => destruct x eqn:?; simpl in *
      end
  end.

Ltac card_unfold :=
  unfold put_card, the_user, createCustomer, createCard, user_update, res_json,
    res_send, emit, await, bind, get, modify_world, modify_req, modify_res,
    ret, throw; simpl.


(** ** The CSRF guard in the middleware chain *)

Lemma state_eta s : mkState (req s) (res s) (wld s) = s.
Proof. destruct s; reflexivity. Qed.

Lemma csrf_reject T B s :
  ignoreMethod (method (req s)) = false ->
  verify_supplied T (session_secret B s) (supplied_token (req s)) = false ->
  exists rq, csrf T B s = (Throw csrf_error, mkState rq (res s) (wld s)).
Proof.
  unfold csrf, session_secret, bind, get, modify_req, ret, throw.
  intros Hm Hv. simpl.
  destruct (csrfSecret (session (req s))) as [k|]; simpl;
    rewrite Hm, Hv; simpl; [exists (req s); rewrite state_eta | eexists]; reflexivity.
Qed.

Lemma front_reject T B s :
  ignoreMethod (method (req s)) = false ->
  verify_supplied T (session_secret B s) (supplied_token (req s)) = false ->
  exists e rq, forall rest,
    dispatch (front_stages T B ++ rest) s = (Throw e, mkState rq (res s) (wld s)).
Proof.
  intros Hm Hv. unfold front_stages. simpl.
  destruct (bodyParser_fault B) as [e|] eqn:Hb.
  { exists e, (req s). intros rest. rewrite bind_eq. unfold bodyParser, await.
    rewrite Hb, state_eta. reflexivity. }
  destruct (session_fault B) as [e|] eqn:Hse.
  { exists e, (req s). intros rest. rewrite bind_eq. unfold bodyParser, await.
    rewrite Hb. cbn [bind throw ret]. rewrite bind_eq.
    unfold session_middleware, await. rewrite Hse, state_eta. reflexivity. }
  destruct (csrf_reject T B s Hm Hv) as [rq Hrq].
  exists csrf_error, rq. intros rest. rewrite bind_eq. unfold bodyParser, await.
  rewrite Hb. cbn [bind throw ret]. rewrite bind_eq.
  unfold session_middleware, await. rewrite Hse. cbn [bind throw ret].
  rewrite bind_eq, Hrq. reflexivity.
Qed.

Lemma error_middleware_stores err s :
  same_stores (wld s) (wld (snd (error_middleware err s))).
Proof.
  unfold error_middleware, bind, get, when, res_status, res_send,
    errorLogger_log, modify_res, modify_world, get, ret, throw, bind,
    same_stores; simpl.
  destruct (statusCode (res s) =? 200); simpl; [|tauto].
  destruct (sent (res s)); simpl; tauto.
Qed.

(** C5: a request with a method that csurf verifies, whose CSRF token is
    missing or does not verify against the session's secret, never reaches
    the router: the run of the application is the same whatever the router
    is, the chain ends in an error in front of it, and no store, log of
    successes or collaborator trace changes. *)
Theorem csrf_rejects_before_handler T B router s :
  ignoreMethod (method (req s)) = false ->
  (supplied_token (req s) = None \/
   exists t, supplied_token (req s) = Some t /\
             tokens_verify T (session_secret B s) t = false) ->
  (forall router', app T B router' s = app T B router s) /\
  (exists e, fst (dispatch (stages T B router) s) = Throw e) /\
  same_stores (wld s) (wld (snd (app T B router s))).
Proof.
  intros Hm Htok.
  assert (Hv : verify_supplied T (session_secret B s) (supplied_token (req s)) = false).
  { destruct Htok as [->|[t [-> Ht]]]; [reflexivity | exact Ht]. }
  destruct (front_reject T B s Hm Hv) as [e [rq Hfront]].
  unfold app, stages. split; [|split].
  - intros router'. rewrite !Hfront. reflexivity.
  - rewrite Hfront. exists e. reflexivity.
  - rewrite Hfront.
    apply (error_middleware_stores e (mkState rq (res s) (wld s))).
Qed.

Lemma csrf_rejects_before_handler_witness :
  (forall router',
     app toy_tokens healthy router' mismatch_state
     = app toy_tokens healthy
           (profile_router healthy (ret Next)) mismatch_state) /\
  (exists e,
     fst (dispatch (stages toy_tokens healthy (profile_router healthy (ret Next)))
                   mismatch_state) = Throw e) /\
  same_stores (wld mismatch_state)
    (wld (snd (app toy_tokens healthy (profile_router healthy (ret Next))
                   mismatch_state))).
Proof.
  apply (csrf_rejects_before_handler toy_tokens healthy
           (profile_router healthy (ret Next)) mismatch_state).
  - reflexivity.
  - right. exists "forged". split; reflexivity.
Defined.

(** ** The CSRF token and its cookie *)

(** C9, as stated, fails: the 500 response to a POST without token carries no
    [XSRF-TOKEN] cookie. *)
Lemma xsrf_cookie_missing_on_rejection : ~ xsrf_cookie_on_every_response.
Proof.
  intros H.
  destruct (H toy_tokens healthy (profile_router healthy (ret Next)) forged_state
              (500, BError "invalid csrf token") eq_refl eq_refl) as [t Ht].
  vm_compute in Ht. exact Ht.
Qed.

Lemma csrf_pass T B s k :
  csrfSecret (session (req s)) = Some k ->
  (ignoreMethod (method (req s)) = true \/
   verify_supplied T k (supplied_token (req s)) = true) ->
  csrf T B s = (Ok Next, s).
Proof.
  intros Hk Hok. unfold csrf, bind, get, ret, throw. rewrite Hk. simpl.
  destruct Hok as [-> | ->]; simpl; [reflexivity|].
  rewrite andb_false_r. reflexivity.
Qed.

Lemma csrf_first T B s :
  csrfSecret (session (req s)) = None ->
  (ignoreMethod (method (req s)) = true \/
   verify_supplied T (tokens_secret B) (supplied_token (req s)) = true) ->
  csrf T B s = (Ok Next, mkState (set_secret (tokens_secret B) (req s)) (res s) (wld s)).
Proof.
  intros Hk Hok. unfold csrf, bind, get, ret, throw, modify_req. rewrite Hk. simpl.
  destruct Hok as [-> | ->]; simpl; [reflexivity|].
  rewrite andb_false_r. reflexivity.
Qed.

Lemma xsrf_cookie_run T B s k :
  csrfSecret (session (req s)) = Some k -> sent (res s) = None ->
  xsrf_cookie T B s =
  (Ok Next,
   mkState (req s)
     (mkRes (statusCode (res s))
            (cookies (res s) ++ [("XSRF-TOKEN", tokens_create T k (tokens_salt B))])
            (sent (res s)))
     (wld s)).
Proof.
  destruct s as [rq [sc ck sn] w]. simpl. intros Hk Hs. subst sn.
  unfold xsrf_cookie, req_csrfToken, res_cookie, bind, get, ret, modify_res.
  simpl. rewrite Hk. reflexivity.
Qed.

(** *** Stages and handlers keep the session's secret *)

Lemma ks_bind {A C} k (m : M A) (f : A -> M C) :
  keeps_secret k m -> (forall a, keeps_secret k (f a)) -> keeps_secret k (bind m f).
Proof.
  intros Hm Hf s Hs. unfold bind. specialize (Hm s Hs).
  destruct (m s) as [[a|e] s1]; simpl in *; [|exact Hm].
  exact (Hf a s1 Hm).
Qed.

Lemma ks_req {A} k (m : M A) :
  (forall s, session (req (snd (m s))) = session (req s)) -> keeps_secret k m.
Proof. intros H s Hs. rewrite H. exact Hs. Qed.

Lemma ks_ret {A} k (a : A) : keeps_secret k (ret a).
Proof. apply ks_req. reflexivity. Qed.

Lemma ks_throw {A} k e : keeps_secret k (@throw A e).
Proof. apply ks_req. reflexivity. Qed.

Lemma ks_await k f : keeps_secret k (await f).
Proof. apply ks_req. intros s. destruct f; reflexivity. Qed.

Lemma ks_res_send k b : keeps_secret k (res_send b).
Proof.
  apply ks_req. intros s. unfold res_send, bind, get, modify_res, throw.
  destruct (sent (res s)); reflexivity.
Qed.

Lemma ks_error_middleware k e : keeps_secret k (error_middleware e).
Proof.
  apply ks_req. intros s.
  unfold error_middleware, bind, get, when, res_status, res_send, errorLogger_log,
    modify_res, modify_world, ret, throw. simpl.
  destruct (statusCode (res s) =? 200); simpl; [|reflexivity].
  destruct (sent (res s)); reflexivity.
Qed.

Lemma ks_delete_profile k B : keeps_secret k (delete_profile B).
Proof.
  apply ks_req. intros s. destruct (req_user (req s)) as [u|] eqn:Hu.
  - delete_walk B u s Hu; simpl; try reflexivity.
    destruct (sent (res s)); reflexivity.
  - unfold delete_profile. rewrite bind_eq, (the_user_missing s Hu). reflexivity.
Qed.

Lemma ks_put_card k B : keeps_secret k (put_card B).
Proof.
  apply ks_req. intros s. destruct s as [rq rs w]. card_unfold.
  repeat split_match; reflexivity.
Qed.

Lemma ks_asyncHandler k (h : M unit) : keeps_secret k h -> keeps_secret k (asyncHandler h).
Proof.
  intros H. unfold asyncHandler. apply ks_bind; [exact H|]. intros _. apply ks_ret.
Qed.

Lemma ks_profile_router k B g :
  (forall st, session (req (snd (g st))) = session (req st)) ->
  keeps_secret k (profile_router B g).
Proof.
  intros Hg. unfold profile_router. apply ks_bind; [apply ks_req; reflexivity|].
  intros s0.
  destruct (path (req s0)), (method (req s0)); try apply ks_ret;
    (apply ks_bind; [apply ks_req; exact Hg|]); intros [|]; try apply ks_ret;
    apply ks_asyncHandler; [apply ks_delete_profile | apply ks_put_card].
Qed.

Lemma ks_csrf k T B : keeps_secret k (csrf T B).
Proof.
  intros s Hs. unfold csrf, bind, get, modify_req, ret, throw. rewrite Hs. simpl.
  destruct (negb (ignoreMethod (method (req s))) &&
            negb (verify_supplied T k (supplied_token (req s)))); exact Hs.
Qed.

Lemma ks_xsrf_cookie k T B : keeps_secret k (xsrf_cookie T B).
Proof.
  intros s Hs.
  unfold xsrf_cookie, req_csrfToken, res_cookie, bind, get, modify_req, modify_res,
    ret, throw.
  rewrite Hs. simpl. destruct (sent (res s)); exact Hs.
Qed.

Lemma ks_frontend k B : keeps_secret k (frontend B).
Proof.
  unfold frontend. apply ks_bind; [apply ks_req; reflexivity|]. intros s0.
  destruct (method (req s0)); try apply ks_ret;
    destruct (frontend_fault B); try apply ks_ret;
    (apply ks_bind; [apply ks_res_send | intros _; apply ks_ret]).
Qed.

Lemma ks_dispatch k (l : list (M outcome)) :
  Forall (keeps_secret k) l -> keeps_secret k (dispatch l).
Proof.
  induction 1 as [|m l Hm Hl IH]; simpl; [apply ks_ret|].
  apply ks_bind; [exact Hm|]. intros [|]; [exact IH | apply ks_ret].
Qed.

Lemma ks_stages k T B g :
  (forall st, session (req (snd (g st))) = session (req st)) ->
  Forall (keeps_secret k) (stages T B (profile_router B g)).
Proof.
  intros Hg. unfold stages, front_stages, back_stages. simpl.
  repeat constructor.
  - unfold bodyParser. apply ks_bind; [apply ks_await | intros _; apply ks_ret].
  - unfold session_middleware.
    apply ks_bind; [apply ks_await | intros _; apply ks_ret].
  - apply ks_csrf.
  - apply ks_xsrf_cookie.
  - apply ks_ret.
  - unfold passport_session.
    apply ks_bind; [apply ks_await | intros _; apply ks_ret].
  - apply ks_profile_router. exact Hg.
  - apply ks_frontend.
Qed.

(** Whatever the request and whatever its outcome, the application keeps
    the secret of the session. *)
Lemma ks_app k T B g :
  (forall st, session (req (snd (g st))) = session (req st)) ->
  keeps_secret k (app T B (profile_router B g)).
Proof.
  intros Hg s Hs. unfold app.
  assert (H := ks_dispatch k _ (ks_stages k T B g Hg) s Hs).
  destruct (dispatch (stages T B (profile_router B g)) s) as [[[|]|e] s']; simpl in *.
  - unfold bind, res_status, res_send, modify_res, get, throw. simpl.
    destruct (sent (res s')); exact H.
  - exact H.
  - apply ks_error_middleware. exact H.
Qed.

Lemma serve_keeps_secret k T g l : forall s,
  (forall st, session (req (snd (g st))) = session (req st)) ->
  csrfSecret (session (req s)) = Some k ->
  csrfSecret (session (req (serve T g l s))) = Some k.
Proof.
  induction l as [|[B rq] l IH]; intros s Hg Hs; simpl; [exact Hs|].
  apply IH; [exact Hg|]. apply ks_app; [exact Hg|]. exact Hs.
Qed.


Lemma secret_eta rq k :
  csrfSecret (session rq) = Some k -> set_secret k rq = rq.
Proof.
  destruct rq as [m p tk ct [sec] u]. simpl. intros ->. reflexivity.
Qed.

(** The state in which a request leaves the stages in front of passport. *)
Lemma front_issue T B s rest :
  sent (res s) = None ->
  bodyParser_fault B = None -> session_fault B = None ->
  (ignoreMethod (method (req s)) = true \/
   verify_supplied T (session_secret B s) (supplied_token (req s)) = true) ->
  dispatch (front_stages T B ++ rest) s =
  dispatch rest
    (mkState (set_secret (session_secret B s) (req s))
       (mkRes (statusCode (res s))
              (cookies (res s)
               ++ [("XSRF-TOKEN",
                    tokens_create T (session_secret B s) (tokens_salt B))])
              (sent (res s)))
       (wld s)).
Proof.
  intros Hs Hb Hse Hpass. unfold front_stages. simpl.
  rewrite bind_eq. unfold bodyParser, await. rewrite Hb. cbn [bind ret].
  rewrite bind_eq. unfold session_middleware, await. rewrite Hse. cbn [bind ret].
  rewrite bind_eq. unfold session_secret in *.
  destruct (csrfSecret (session (req s))) as [k|] eqn:Hk.
  - rewrite (csrf_pass T B s k Hk Hpass).
    rewrite bind_eq, (xsrf_cookie_run T B s k Hk Hs).
    rewrite (secret_eta _ _ Hk). reflexivity.
  - rewrite (csrf_first T B s Hk Hpass).
    rewrite bind_eq, (xsrf_cookie_run T B _ (tokens_secret B)) by (simpl; auto).
    reflexivity.
Qed.

Lemma error_middleware_cookies e s :
  cookies (res (snd (error_middleware e s))) = cookies (res s).
Proof.
  unfold error_middleware, bind, get, when, res_status, res_send, errorLogger_log,
    modify_res, modify_world, ret, throw. simpl.
  destruct (statusCode (res s) =? 200); simpl; [|reflexivity].
  destruct (sent (res s)); reflexivity.
Qed.

Lemma rejected_no_cookie T B router s :
  rejected_before_cookie T B s = true ->
  cookies (res (snd (app T B router s))) = cookies (res s).
Proof.
  unfold rejected_before_cookie, app, stages, front_stages. simpl. intros H.
  rewrite bind_eq. unfold bodyParser, await.
  destruct (bodyParser_fault B) as [e|]; cbn [bind throw ret].
  { apply error_middleware_cookies. }
  rewrite bind_eq. unfold session_middleware, await.
  destruct (session_fault B) as [e|]; cbn [bind throw ret].
  { apply error_middleware_cookies. }
  apply andb_true_iff in H. destruct H as [Hm Hv].
  apply negb_true_iff in Hm. apply negb_true_iff in Hv.
  destruct (csrf_reject T B s Hm Hv) as [rq Hrq].
  rewrite bind_eq, Hrq. rewrite error_middleware_cookies. reflexivity.
Qed.

Lemma app_secret_after T B g s :
  (forall st, session (req (snd (g st))) = session (req st)) ->
  sent (res s) = None ->
  bodyParser_fault B = None -> session_fault B = None ->
  (ignoreMethod (method (req s)) = true \/
   verify_supplied T (session_secret B s) (supplied_token (req s)) = true) ->
  csrfSecret (session (req (snd (app T B (profile_router B g) s))))
  = Some (session_secret B s).
Proof.
  intros Hg Hs Hb Hse Hpass. unfold app, stages.
  rewrite (front_issue T B s _ Hs Hb Hse Hpass).
  set (k := session_secret B s).
  set (sf := mkState (set_secret k (req s)) _ (wld s)).
  assert (Hsf : csrfSecret (session (req sf)) = Some k) by reflexivity.
  assert (Hback : Forall (keeps_secret k) (back_stages B (profile_router B g))).
  { assert (H := ks_stages k T B g Hg). unfold stages in H.
    apply Forall_app in H. tauto. }
  assert (H := ks_dispatch k _ Hback sf Hsf).
  destruct (dispatch (back_stages B (profile_router B g)) sf) as [[[|]|e] s'];
    simpl in *.
  - unfold bind, res_status, res_send, modify_res, get, throw. simpl.
    destruct (sent (res s')); exact H.
  - exact H.
  - apply ks_error_middleware. exact H.
Qed.

(** C9, amended: while a session exists, its CSRF secret is created once and
    is kept by every request, whatever the request's outcome (the login
    guard being one that leaves the session alone); provided the token
    scheme accepts the token it made from that secret, a token issued for
    the session is therefore still accepted by the CSRF guard after any
    number of further requests: tokens are not rotated.  The readable
    [XSRF-TOKEN] cookie is set anew, to a token made from that secret, on
    every request that passes the body parser, the session stage and the
    CSRF guard; the response to a request rejected in front of the cookie
    middleware carries no new cookie. *)
Theorem csrf_token_lifetime T g B1 s1 later B2 rq2 :
  let k := session_secret B1 s1 in
  let t1 := tokens_create T k (tokens_salt B1) in
  let s1' := snd (app T B1 (profile_router B1 g) s1) in
  let s2 := follow_up (serve T g later s1') rq2 in
  (forall st, session (req (snd (g st))) = session (req st)) ->
  sent (res s1) = None ->
  bodyParser_fault B1 = None -> session_fault B1 = None ->
  (ignoreMethod (method (req s1)) = true \/
   verify_supplied T k (supplied_token (req s1)) = true) ->
  tokens_verify T k t1 = true ->
  session_alive (wld (serve T g later s1')) = true ->
  supplied_token rq2 = Some t1 ->
  bodyParser_fault B2 = None -> session_fault B2 = None ->
  fst (dispatch (front_stages T B1) s1) = Ok Next /\
  cookies (res (snd (dispatch (front_stages T B1) s1)))
  = cookies (res s1) ++ [("XSRF-TOKEN", t1)] /\
  csrfSecret (session (req s2)) = Some k /\
  fst (dispatch (front_stages T B2) s2) = Ok Next /\
  cookies (res (snd (dispatch (front_stages T B2) s2)))
  = [("XSRF-TOKEN", tokens_create T k (tokens_salt B2))] /\
  (forall B s router,
     rejected_before_cookie T B s = true ->
     cookies (res (snd (app T B router s))) = cookies (res s)).
Proof.
  intros k t1 s1' s2 Hg Hs Hb Hse Hpass Hver Halive Htok Hb2 Hse2.
  assert (H1 := front_issue T B1 s1 [] Hs Hb Hse Hpass).
  rewrite app_nil_r in H1.
  assert (Hk1 : csrfSecret (session (req s1')) = Some k)
    by exact (app_secret_after T B1 g s1 Hg Hs Hb Hse Hpass).
  assert (Hk2 : csrfSecret (session (req s2)) = Some k).
  { unfold s2, follow_up. simpl. apply serve_keeps_secret; assumption. }
  assert (Hsec2 : session_secret B2 s2 = k).
  { unfold session_secret. rewrite Hk2. reflexivity. }
  assert (Hpass2 : ignoreMethod (method (req s2)) = true \/
                   verify_supplied T (session_secret B2 s2) (supplied_token (req s2))
                   = true).
  { right. rewrite Hsec2. unfold s2, follow_up. simpl. rewrite Htok. exact Hver. }
  assert (H2 := front_issue T B2 s2 [] eq_refl Hb2 Hse2 Hpass2).
  rewrite app_nil_r, Hsec2 in H2.
  rewrite H1, H2. simpl.
  repeat split; auto.
  intros B s router. apply rejected_no_cookie.
Qed.

Lemma csrf_token_lifetime_witness :
  let k := session_secret healthy get_state in
  let t1 := tokens_create toy_tokens k (tokens_salt healthy) in
  let s1' := snd (app toy_tokens healthy (profile_router healthy (ret Next))
                      get_state) in
  let s2 := follow_up (serve toy_tokens (ret Next) [(mongo_fails, delete_request)] s1')
                      (req card_state) in
  fst (dispatch (front_stages toy_tokens healthy) get_state) = Ok Next /\
  cookies (res (snd (dispatch (front_stages toy_tokens healthy) get_state)))
  = cookies (res get_state) ++ [("XSRF-TOKEN", t1)] /\
  csrfSecret (session (req s2)) = Some k /\
  fst (dispatch (front_stages toy_tokens healthy) s2) = Ok Next /\
  cookies (res (snd (dispatch (front_stages toy_tokens healthy) s2)))
  = [("XSRF-TOKEN", tokens_create toy_tokens k (tokens_salt healthy))] /\
  (forall B s router,
     rejected_before_cookie toy_tokens B s = true ->
     cookies (res (snd (app toy_tokens B router s))) = cookies (res s)).
Proof.
  apply (csrf_token_lifetime toy_tokens (ret Next) healthy get_state
           [(mongo_fails, delete_request)] healthy (req card_state));
    try reflexivity.
  left. reflexivity.
Defined.

(** ** Session lifetime *)

(** C8, as stated, fails: a session created at time 0 and used after 47
    hours is still accepted after 49 hours. *)
Lemma lifetime_not_absolute : ~ lifetime_absolute.
Proof.
  intros H.
  assert (Hlate : 0 + cookie_maxAge sessionConfig <= 49 * hour)
    by (vm_compute; discriminate).
  specialize (H "sid-1" 7 0 [47 * hour] (49 * hour) Hlate).
  vm_compute in H. discriminate.
Qed.

Lemma find_touch cfg now sid store :
  find (has_id sid) (store_touch cfg now sid store)
  = option_map (fun r => mkStored (sessionId r) (identityId r)
                                  (now + cookie_maxAge cfg))
               (find (has_id sid) store).
Proof.
  unfold store_touch. induction store as [|r store IH]; [reflexivity|].
  simpl. destruct (has_id sid r) eqn:E.
  - unfold has_id in *. simpl. rewrite E. reflexivity.
  - rewrite E. exact IH.
Qed.

(** C8, amended: the lifetime of 48 hours is configured once, as the
    cookie's [maxAge], and the session store enforces it as an idle
    lifetime: a request that finds the session renews it, so that the
    session is accepted at every time before 48 hours after that request
    and at no time from then on. *)
Theorem session_idle_lifetime sid store t r now :
  store_get t sid store = Some r ->
  let store' := snd (session_request sessionConfig t sid store) in
  cookie_maxAge sessionConfig = 48 * 60 * 60 * 1000 /\
  fst (session_request sessionConfig t sid store) = Some (identityId r) /\
  (now < t + 48 * 60 * 60 * 1000 ->
   store_get now sid store'
   = Some (mkStored (sessionId r) (identityId r) (t + 48 * 60 * 60 * 1000))) /\
  (t + 48 * 60 * 60 * 1000 <= now -> store_get now sid store' = None).
Proof.
  intros Hget. unfold session_request. rewrite Hget. simpl.
  unfold store_get in *. rewrite find_touch.
  destruct (find (has_id sid) store) as [r0|]; [|discriminate].
  destruct (t <? expiresAt r0); [|discriminate]. injection Hget as <-.
  simpl. change (cookie_maxAge sessionConfig) with (48 * 60 * 60 * 1000).
  repeat split.
  - intros H. apply Z.ltb_lt in H. rewrite H. reflexivity.
  - intros H. apply Z.ltb_ge in H. rewrite H. reflexivity.
Qed.

Lemma session_idle_lifetime_witness :
  let store' := snd (session_request sessionConfig (47 * hour) "sid-1" store0) in
  cookie_maxAge sessionConfig = 48 * 60 * 60 * 1000 /\
  fst (session_request sessionConfig (47 * hour) "sid-1" store0) = Some 7 /\
  (49 * hour < 47 * hour + 48 * 60 * 60 * 1000 ->
   store_get (49 * hour) "sid-1" store'
   = Some (mkStored "sid-1" 7 (47 * hour + 48 * 60 * 60 * 1000))) /\
  (47 * hour + 48 * 60 * 60 * 1000 <= 49 * hour ->
   store_get (49 * hour) "sid-1" store' = None).
Proof.
  exact (session_idle_lifetime "sid-1" store0 (47 * hour)
           (mkStored "sid-1" 7 (1000 + 48 * 3600 * 1000)) (49 * hour) eq_refl).
Defined.

(** ** Attaching a payment card *)

Lemma update_row_customer uid card l :
  map stripe_customer_id (update_row uid (mkUpdate None card) l)
  = map stripe_customer_id l.
Proof.
  unfold update_row. rewrite map_map. apply map_ext. intros r.
  destruct (id r =? uid); reflexivity.
Qed.

Lemma update_row_card uid d cardId l row :
  upd_stripe_card_id d = Some cardId ->
  In row (update_row uid d l) -> id row = uid -> stripe_card_id row = Some cardId.
Proof.
  intros Hd Hin Hid. unfold update_row in Hin. apply in_map_iff in Hin.
  destruct Hin as [r0 [Hr0 _]].
  destruct (Z.eqb_spec (id r0) uid) as [E|E].
  - subst row. unfold apply_update. simpl. rewrite Hd. reflexivity.
  - subst row. contradiction.
Qed.

Lemma card_tail_run B u tok customer d0 s :
  card_tail B u tok customer d0 s =
  match createCard_reply B tok customer with
  | inr e => (Throw e, logged (EvCreateCard tok customer) s)
  | inl card =>
      let d := mkUpdate (upd_stripe_customer_id d0) (Some card) in
      let w1 := log_event (EvUpdate (id u) d)
                  (log_event (EvCreateCard tok customer) (wld s)) in
      let rq1 := with_user (apply_update d u) (req s) in
      match update_fault B with
      | Some e => (Throw e, mkState rq1 (res s) w1)
      | None =>
          let w2 := set_users (update_row (id u) d (users w1)) w1 in
          match sent (res s) with
          | Some _ => (Throw headers_sent, mkState rq1 (res s) w2)
          | None =>
              (Ok tt,
               mkState rq1
                 (mkRes (statusCode (res s)) (cookies (res s))
                        (Some (statusCode (res s), BUser (apply_update d u))))
                 w2)
          end
      end
  end.
Proof.
  unfold card_tail. card_unfold. unfold logged, with_user.
  destruct (createCard_reply B tok customer) as [card|e]; simpl; [|reflexivity].
  destruct (update_fault B); simpl; [reflexivity|].
  destruct (sent (res s)); reflexivity.
Qed.

Lemma put_card_existing B s u c :
  req_user (req s) = Some u ->
  stripe_customer_id u = Some c -> truthy (Some c) = true ->
  put_card B s = card_tail B u (card_token (req s)) c (mkUpdate None None) s.
Proof.
  intros Hu Hc Ht. unfold put_card.
  rewrite bind_eq. unfold get at 1. cbv iota beta.
  rewrite bind_eq, (the_user_run s u Hu).
  rewrite Hc, Ht. reflexivity.
Qed.

Lemma put_card_new B s u :
  req_user (req s) = Some u ->
  truthy (stripe_customer_id u) = false ->
  put_card B s =
  match createCustomer_reply B (email u) with
  | inl c' => card_tail B u (card_token (req s)) c' (mkUpdate (Some c') None)
                        (logged (EvCreateCustomer (email u)) s)
  | inr e => (Throw e, logged (EvCreateCustomer (email u)) s)
  end.
Proof.
  intros Hu Ht. unfold put_card.
  rewrite bind_eq. unfold get at 1. cbv iota beta.
  rewrite bind_eq, (the_user_run s u Hu).
  assert (E : forall k : (string * update_data) -> M unit,
            bind (c' <- createCustomer B (email u) ;;
                  ret (c', mkUpdate (Some c') None)) k s =
            match createCustomer_reply B (email u) with
            | inl c' => k (c', mkUpdate (Some c') None)
                          (logged (EvCreateCustomer (email u)) s)
            | inr e => (Throw e, logged (EvCreateCustomer (email u)) s)
            end).
  { intros k. unfold createCustomer, bind, emit, modify_world, ret, throw, logged.
    destruct (createCustomer_reply B (email u)); reflexivity. }
  destruct (stripe_customer_id u) as [c|] eqn:Hc.
  - rewrite Ht. simpl upd_stripe_card_id. rewrite E. reflexivity.
  - simpl upd_stripe_card_id. rewrite E. reflexivity.
Qed.

(** C10: in the attach-card handler a payment customer is created only when
    the user's stored customer reference is falsy (and then it is created
    first); a stored reference is handed unchanged to the card creation and
    no row's customer reference changes; on success the card reference of
    the user's row, of the instance and of the response is the id the card
    creation returned. *)
Theorem put_card_customer B s u :
  req_user (req s) = Some u ->
  let r := put_card B s in
  exists evs,
    trace (wld (snd r)) = trace (wld s) ++ evs /\
    ((exists m, In (EvCreateCustomer m) evs) ->
     truthy (stripe_customer_id u) = false) /\
    (truthy (stripe_customer_id u) = false ->
     exists tl, evs = EvCreateCustomer (email u) :: tl) /\
    (forall c, stripe_customer_id u = Some c -> truthy (Some c) = true ->
       (exists tl, evs = EvCreateCard (card_token (req s)) c :: tl) /\
       map stripe_customer_id (users (wld (snd r)))
       = map stripe_customer_id (users (wld s))) /\
    (fst r = Ok tt ->
     exists customer cardId u',
       createCard_reply B (card_token (req s)) customer = inl cardId /\
       (forall row, In row (users (wld (snd r))) -> id row = id u ->
                    stripe_card_id row = Some cardId) /\
       stripe_card_id u' = Some cardId /\
       req_user (req (snd r)) = Some u' /\
       sent (res (snd r)) = Some (statusCode (res s), BUser u')).
Proof.
  intros Hu r. subst r.
  destruct (truthy (stripe_customer_id u)) eqn:Ht.
  - destruct (stripe_customer_id u) as [c|] eqn:Hc; [|discriminate].
    rewrite (put_card_existing B s u c Hu Hc Ht), card_tail_run.
    destruct (createCard_reply B (card_token (req s)) c) as [card|e] eqn:Hcard.
    + destruct (update_fault B) as [e|]; [|destruct (sent (res s))];
        cbv zeta; simpl;
        (eexists; split; [rewrite <- ?app_assoc; simpl; reflexivity|]).
      * split; [intros [m [H|[H|[]]]]; discriminate|].
        split; [discriminate|].
        split; [intros c0 Hc0 _; injection Hc0 as <-; eauto|discriminate].
      * split; [intros [m [H|[H|[]]]]; discriminate|].
        split; [discriminate|].
        split; [intros c0 Hc0 _; injection Hc0 as <-;
                split; [eauto|apply update_row_customer]|discriminate].
      * split; [intros [m [H|[H|[]]]]; discriminate|].
        split; [discriminate|].
        split; [intros c0 Hc0 _; injection Hc0 as <-;
                split; [eauto|apply update_row_customer]|].
        intros _. exists c, card. eexists.
        split; [exact Hcard|].
        split; [intros row; apply update_row_card; reflexivity|].
        split; [|split; reflexivity]. reflexivity.
    + simpl. eexists; split; [reflexivity|].
      split; [intros [m [H|[]]]; discriminate|].
      split; [discriminate|].
      split; [intros c0 Hc0 _; injection Hc0 as <-; eauto|discriminate].
  - rewrite (put_card_new B s u Hu Ht).
    assert (Hno : forall c0, stripe_customer_id u = Some c0 ->
                             truthy (Some c0) = true -> False).
    { intros c0 Hc0 Ht0. rewrite Hc0 in Ht. congruence. }
    destruct (createCustomer_reply B (email u)) as [cus|e].
    + rewrite card_tail_run. simpl.
      destruct (createCard_reply B (card_token (req s)) cus) as [card|e] eqn:Hcard.
      * destruct (update_fault B) as [e|]; [|destruct (sent (res s))];
          cbv zeta; simpl;
          (eexists; split; [rewrite <- ?app_assoc; simpl; reflexivity|]);
          (split; [reflexivity|]); (split; [eauto|]);
          (split; [intros c0 Hc0 Ht0; destruct (Hno c0 Hc0 Ht0)|]);
          try discriminate.
        intros _. exists cus, card. eexists.
        split; [exact Hcard|].
        split; [intros row; apply update_row_card; reflexivity|].
        split; [|split; reflexivity]. reflexivity.
      * simpl. eexists; split; [rewrite <- ?app_assoc; simpl; reflexivity|].
        split; [reflexivity|]. split; [eauto|].
        split; [intros c0 Hc0 Ht0; destruct (Hno c0 Hc0 Ht0)|discriminate].
    + simpl. eexists; split; [reflexivity|].
      split; [reflexivity|]. split; [eauto|].
      split; [intros c0 Hc0 Ht0; destruct (Hno c0 Hc0 Ht0)|discriminate].
Qed.

Lemma put_card_customer_witness :
  let r := put_card healthy card_state in
  exists evs,
    trace (wld (snd r)) = trace (wld card_state) ++ evs /\
    ((exists m, In (EvCreateCustomer m) evs) ->
     truthy (stripe_customer_id bob) = false) /\
    (truthy (stripe_customer_id bob) = false ->
     exists tl, evs = EvCreateCustomer (email bob) :: tl) /\
    (forall c, stripe_customer_id bob = Some c -> truthy (Some c) = true ->
       (exists tl, evs = EvCreateCard (card_token (req card_state)) c :: tl) /\
       map stripe_customer_id (users (wld (snd r)))
       = map stripe_customer_id (users (wld card_state))) /\
    (fst r = Ok tt ->
     exists customer cardId u',
       createCard_reply healthy (card_token (req card_state)) customer = inl cardId /\
       (forall row, In row (users (wld (snd r))) -> id row = id bob ->
                    stripe_card_id row = Some cardId) /\
       stripe_card_id u' = Some cardId /\
       req_user (req (snd r)) = Some u' /\
       sent (res (snd r)) = Some (statusCode (res card_state), BUser u')).
Proof. exact (put_card_customer healthy card_state bob eq_refl). Defined.

(** * Further properties *)

(** ** The account deletion: what it removes and what it keeps *)

Lemma sweep_keeps B l : forall bl b, In b bl -> ~ In b l -> In b (sweep B l bl).
Proof.
  induction l as [|u l IH]; intros bl b Hin Hout; simpl; [assumption|].
  apply IH.
  - destruct (deleteFile_fault B u); [assumption|].
    unfold remove_blob. apply filter_In. split; [assumption|].
    apply negb_true_iff, String.eqb_neq. intros ->. apply Hout. left. reflexivity.
  - intros H. apply Hout. right. exact H.
Qed.

Lemma first_fault_none B l a :
  first_fault B l = None -> In a l -> deleteFile_fault B a = None.
Proof.
  unfold first_fault.
  induction l as [|u l IH]; intros Hf Hin; [contradiction|].
  simpl in Hf. destruct (deleteFile_fault B u) eqn:E.
  - destruct (first_rejection B l) as [[t' e']|]; [|discriminate].
    destruct (t' <? deleteFile_settles B u)%nat; discriminate.
  - destruct Hin as [<-|Hin]; [exact E | exact (IH Hf Hin)].
Qed.

Lemma delete_row_keeps uid l row :
  In row l -> id row <> uid -> In row (delete_row uid l).
Proof.
  intros Hin Hne. unfold delete_row. apply filter_In. split; [assumption|].
  apply negb_true_iff, Z.eqb_neq. exact Hne.
Qed.

Lemma delete_views_keeps uid l v :
  In v l -> view_authorId v <> uid -> In v (delete_views uid l).
Proof.
  intros Hin Hne. unfold delete_views. apply filter_In. split; [assumption|].
  apply negb_true_iff, Z.eqb_neq. exact Hne.
Qed.

Lemma delete_views_gone uid l v : In v (delete_views uid l) -> view_authorId v <> uid.
Proof.
  unfold delete_views. intros H. apply filter_In in H. destruct H as [_ H].
  apply negb_true_iff, Z.eqb_neq in H. exact H.
Qed.

(** X1: whatever fails, the account deletion touches only what belongs to
    the user: rows of other users, documents of other authors and blobs
    outside the snapshot are still there afterwards, and the articles table
    and the error log are not written. *)
Theorem delete_profile_frame B s u :
  req_user (req s) = Some u ->
  let w' := wld (snd (delete_profile B s)) in
  (forall row, In row (users (wld s)) -> id row <> id u -> In row (users w')) /\
  (forall v, In v (articlesviews (wld s)) -> view_authorId v <> id u ->
             In v (articlesviews w')) /\
  (forall b, In b (blobs (wld s)) ->
             ~ In b (profile_blob u ++ picture_rows (id u) (articles (wld s))) ->
             In b (blobs w')) /\
  articles w' = articles (wld s) /\
  error_log w' = error_log (wld s).
Proof.
  intros Hu w'. subst w'.
  assert (Hblobs : forall b, In b (blobs (wld s)) ->
            ~ In b (profile_blob u ++ picture_rows (id u) (articles (wld s))) ->
            In b (sweep B (picture_rows (id u) (articles (wld s)))
                    (sweep B (profile_blob u) (blobs (wld s))))).
  { intros b Hin Hout. apply sweep_keeps; [apply sweep_keeps; [assumption|]|];
      intros H; apply Hout; apply in_or_app; tauto. }
  assert (Hblob1 : forall b, In b (blobs (wld s)) ->
            ~ In b (profile_blob u ++ picture_rows (id u) (articles (wld s))) ->
            In b (sweep B (profile_blob u) (blobs (wld s)))).
  { intros b Hin Hout. apply sweep_keeps; [assumption|].
    intros H; apply Hout; apply in_or_app; tauto. }
  delete_walk B u s Hu; simpl; try (destruct (sent (res s)); simpl);
    repeat split; auto using delete_row_keeps, delete_views_keeps.
Qed.

Lemma delete_profile_frame_witness :
  let w' := wld (snd (delete_profile article_fails state0)) in
  (forall row, In row (users (wld state0)) -> id row <> id alice -> In row (users w')) /\
  (forall v, In v (articlesviews (wld state0)) -> view_authorId v <> id alice ->
             In v (articlesviews w')) /\
  (forall b, In b (blobs (wld state0)) ->
             ~ In b (profile_blob alice
                     ++ picture_rows (id alice) (articles (wld state0))) ->
             In b (blobs w')) /\
  articles w' = articles (wld state0) /\
  error_log w' = error_log (wld state0).
Proof. exact (delete_profile_frame article_fails state0 alice eq_refl). Defined.

(** X2: when the account deletion returns normally, no row of the user, no
    snapshotted blob and no document of the author is left, the session is
    torn down, the success entry is in the info log and the answer of the
    teardown went out with the status code the response had. *)
Theorem delete_profile_success B s u :
  req_user (req s) = Some u ->
  fst (delete_profile B s) = Ok tt ->
  let s' := snd (delete_profile B s) in
  (forall row, In row (users (wld s')) -> id row <> id u) /\
  (forall b, In b (profile_blob u ++ picture_rows (id u) (articles (wld s))) ->
             ~ In b (blobs (wld s'))) /\
  (forall v, In v (articlesviews (wld s')) -> view_authorId v <> id u) /\
  session_alive (wld s') = false /\
  info_log (wld s') = info_log (wld s) ++ [UserDeleted (id u)] /\
  sent (res s') = Some (statusCode (res s), BLoggedOut).
Proof.
  intros Hu. delete_walk B u s Hu; simpl; try discriminate.
  destruct (sent (res s)); simpl; [discriminate|]. intros _.
  split; [intros row; apply delete_row_gone|].
  split.
  { intros b Hin. apply in_app_or in Hin. destruct Hin as [Hin|Hin].
    - intros H. apply sweep_subset in H. revert H.
      apply sweep_removes; [assumption|].
      apply (first_fault_none B (profile_blob u)); assumption.
    - apply sweep_removes; [assumption|].
      eapply first_fault_none; eassumption. }
  split; [intros v; apply delete_views_gone|].
  auto.
Qed.

Lemma delete_profile_success_witness :
  let s' := snd (delete_profile healthy state0) in
  (forall row, In row (users (wld s')) -> id row <> id alice) /\
  (forall b, In b (profile_blob alice
                   ++ picture_rows (id alice) (articles (wld state0))) ->
             ~ In b (blobs (wld s'))) /\
  (forall v, In v (articlesviews (wld s')) -> view_authorId v <> id alice) /\
  session_alive (wld s') = false /\
  info_log (wld s') = info_log (wld state0) ++ [UserDeleted (id alice)] /\
  sent (res s') = Some (statusCode (res state0), BLoggedOut).
Proof. exact (delete_profile_success healthy state0 alice eq_refl eq_refl). Defined.

(** X3: the success entry is written and the session teardown is started
    exactly when every step in front of the teardown succeeded; the entry is
    therefore in the log even when the teardown then fails and the run ends
    in that error.  When an earlier step fails, nothing is logged, the
    teardown is not started and the session stays alive. *)
Theorem delete_profile_success_log B s u :
  req_user (req s) = Some u ->
  let r := delete_profile B s in
  exists evs,
    trace (wld (snd r)) = trace (wld s) ++ evs /\
    if cleanup_ok B u (wld s)
    then info_log (wld (snd r)) = info_log (wld s) ++ [UserDeleted (id u)] /\
         In EvLogout evs /\
         (forall e, logout_fault B = Some e ->
                    fst r = Throw e /\
                    session_alive (wld (snd r)) = session_alive (wld s))
    else info_log (wld (snd r)) = info_log (wld s) /\
         ~ In EvLogout evs /\
         session_alive (wld (snd r)) = session_alive (wld s) /\
         exists e, fst r = Throw e.
Proof.
  intros Hu r. subst r. unfold cleanup_ok.
  assert (Hno : forall l, ~ In EvLogout (map EvDeleteFile l)).
  { intros l H. apply in_map_iff in H. destruct H as [x [Hx _]]. discriminate. }
  delete_walk B u s Hu; simpl;
    try match goal with
        | |- context [match sent (res s) with _ => _ end] =>
            destruct (sent (res s)); simpl
        end;
    (eexists; split; [rewrite <- ?app_assoc; simpl; reflexivity|]);
    simpl; repeat split; eauto;
    try match goal with
        | |- ~ _ =>
            let H := fresh in
            intros H; simpl in H;
            repeat (destruct H as [H|H]; [discriminate|]);
            repeat (apply in_app_or in H; destruct H as [H|H]);
            try (exact (Hno _ H)); simpl in H; intuition discriminate
        | |- _ \/ _ => right; right; rewrite !in_app_iff; simpl; tauto
        end; congruence.
Qed.

Lemma delete_profile_success_log_witness :
  let r := delete_profile logout_fails state0 in
  exists evs,
    trace (wld (snd r)) = trace (wld state0) ++ evs /\
    if cleanup_ok logout_fails alice (wld state0)
    then info_log (wld (snd r)) = info_log (wld state0) ++ [UserDeleted (id alice)] /\
         In EvLogout evs /\
         (forall e, logout_fault logout_fails = Some e ->
                    fst r = Throw e /\
                    session_alive (wld (snd r)) = session_alive (wld state0))
    else info_log (wld (snd r)) = info_log (wld state0) /\
         ~ In EvLogout evs /\
         session_alive (wld (snd r)) = session_alive (wld state0) /\
         exists e, fst r = Throw e.
Proof. exact (delete_profile_success_log logout_fails state0 alice eq_refl). Defined.

(** X4: an empty string as profile picture is skipped, whereas an article
    picture that is the empty string is part of the snapshot: the first blob
    deletions after the record deletion are those of the article pictures,
    the empty URL among them. *)
Theorem delete_profile_empty_picture B s u a :
  req_user (req s) = Some u ->
  findAll_fault B = None -> destroy_fault B = None ->
  picture u = Some "" ->
  In a (articles (wld s)) -> authorId a = id u -> article_picture a = Some "" ->
  let rows := picture_rows (id u) (articles (wld s)) in
  In "" rows /\
  exists tl,
    trace (wld (snd (delete_profile B s)))
    = trace (wld s) ++ EvFindAll (id u) :: EvDestroy (id u)
                    :: map EvDeleteFile rows ++ tl.
Proof.
  intros Hu Hf Hd Hpic Ha Hauthor Hapic rows. subst rows.
  split.
  { unfold picture_rows. apply in_flat_map. exists a. split; [assumption|].
    rewrite Hauthor, Z.eqb_refl, Hapic. left. reflexivity. }
  assert (Hblob : profile_blob u = []).
  { unfold profile_blob. rewrite Hpic. reflexivity. }
  assert (Hpf : profile_fault B u = None).
  { unfold profile_fault. rewrite Hblob. reflexivity. }
  delete_walk B u s Hu; try congruence; simpl; rewrite Hblob; simpl;
    try match goal with
        | |- context [match sent (res s) with _ => _ end] =>
            destruct (sent (res s)); simpl
        end;
    rewrite <- ?app_assoc; simpl; eexists;
    try reflexivity.
  rewrite app_nil_r. reflexivity.
Qed.

Lemma delete_profile_empty_picture_witness :
  let rows := picture_rows (id carol) (articles (wld carol_state)) in
  In "" rows /\
  exists tl,
    trace (wld (snd (delete_profile healthy carol_state)))
    = trace (wld carol_state) ++ EvFindAll (id carol) :: EvDestroy (id carol)
                              :: map EvDeleteFile rows ++ tl.
Proof.
  apply (delete_profile_empty_picture healthy carol_state carol
           (mkArticle 4 9 (Some ""))); try reflexivity.
  simpl. left. reflexivity.
Defined.

(** ** The router and the middleware chain *)

(** X5: on the delete-account and attach-card routes the login guard runs
    first: when it does not call [next] (it ends the exchange or fails), the
    route ends exactly as the guard left it and the handler does not run. *)
Theorem profile_router_guard B g s h :
  protected_handler B (req s) = Some h ->
  fst (g s) <> Ok Next ->
  profile_router B g s = g s.
Proof.
  intros Hh Hg. unfold protected_handler in Hh. unfold profile_router.
  rewrite bind_eq. unfold get.
  destruct (path (req s)), (method (req s)); try discriminate;
    rewrite bind_eq; destruct (g s) as [[[|]|e] s1]; simpl in *;
    try reflexivity; exfalso; apply Hg; reflexivity.
Qed.

Lemma profile_router_guard_witness :
  profile_router healthy (throw boom) state0 = throw boom state0.
Proof.
  apply (profile_router_guard healthy (throw boom) state0 (delete_profile healthy)).
  - reflexivity.
  - simpl. discriminate.
Defined.

Lemma front_pass T B s k rest :
  csrfSecret (session (req s)) = Some k -> sent (res s) = None ->
  bodyParser_fault B = None -> session_fault B = None ->
  (ignoreMethod (method (req s)) = true \/
   verify_supplied T k (supplied_token (req s)) = true) ->
  dispatch (front_stages T B ++ rest) s = dispatch rest (with_cookie T B k s).
Proof.
  intros Hk Hs Hb Hse Hpass. unfold front_stages. simpl.
  rewrite bind_eq. unfold bodyParser, await. rewrite Hb. cbn [bind ret].
  rewrite bind_eq. unfold session_middleware, await. rewrite Hse. cbn [bind ret].
  rewrite bind_eq, (csrf_pass T B s k Hk Hpass).
  rewrite bind_eq, (xsrf_cookie_run T B s k Hk Hs). reflexivity.
Qed.

Lemma profile_router_pass B g s h :
  protected_handler B (req s) = Some h -> g s = (Ok Next, s) ->
  profile_router B g s = asyncHandler h s.
Proof.
  unfold protected_handler, profile_router, bind, get. intros Hh Hg.
  destruct (path (req s)), (method (req s)); try discriminate;
    injection Hh as <-; rewrite Hg; reflexivity.
Qed.

Lemma back_run B router s :
  passport_fault B = None ->
  dispatch (back_stages B router) s =
  match router s with
  | (Ok Next, s') =>
      match frontend B s' with
      | (Ok Next, s2) => (Ok Next, s2)
      | (Ok End, s2) => (Ok End, s2)
      | (Throw e, s2) => (Throw e, s2)
      end
  | (Ok End, s') => (Ok End, s')
  | (Throw e, s') => (Throw e, s')
  end.
Proof.
  intros Hp. unfold back_stages. cbn [dispatch].
  unfold bind, passport_initialize, passport_session, await, ret.
  rewrite Hp. simpl.
  destruct (router s) as [[[|]|e] s']; try reflexivity.
  destruct (frontend B s') as [[[|]|e] s2]; reflexivity.
Qed.

(** X6: a request for a protected route with a valid CSRF token, that the
    body parser, the session stage, passport and the login guard let through,
    is answered by its handler behind the error middleware, run on the state
    in which the CSRF cookie is set. *)
Theorem app_runs_protected_handler T B g s k h :
  csrfSecret (session (req s)) = Some k -> sent (res s) = None ->
  bodyParser_fault B = None -> session_fault B = None -> passport_fault B = None ->
  verify_supplied T k (supplied_token (req s)) = true ->
  protected_handler B (req s) = Some h ->
  g (with_cookie T B k s) = (Ok Next, with_cookie T B k s) ->
  app T B (profile_router B g) s = handle h (with_cookie T B k s).
Proof.
  intros Hk Hs Hb Hse Hp Hv Hh Hg. unfold app, stages.
  rewrite (front_pass T B s k _ Hk Hs Hb Hse (or_intror Hv)).
  rewrite (back_run B _ _ Hp).
  rewrite (profile_router_pass B g (with_cookie T B k s) h Hh Hg).
  unfold asyncHandler, handle. rewrite bind_eq.
  destruct (h (with_cookie T B k s)) as [[[]|e] s']; reflexivity.
Qed.

Lemma app_runs_protected_handler_witness :
  app toy_tokens healthy (profile_router healthy (ret Next)) state0
  = handle (delete_profile healthy) (with_cookie toy_tokens healthy "k" state0).
Proof.
  apply (app_runs_protected_handler toy_tokens healthy (ret Next) state0 "k"
           (delete_profile healthy)); reflexivity.
Defined.

(** X7: when passport's session stage fails on a fresh response, the router
    does not run and the caller receives status 500 with the error's message;
    that response carries the CSRF cookie, which was set by an earlier
    stage. *)
Theorem passport_fault_keeps_cookie T B router s k e :
  csrfSecret (session (req s)) = Some k -> res s = fresh_res ->
  bodyParser_fault B = None -> session_fault B = None ->
  (ignoreMethod (method (req s)) = true \/
   verify_supplied T k (supplied_token (req s)) = true) ->
  passport_fault B = Some e ->
  app T B router s =
  (Ok tt,
   mkState (req s)
     (mkRes 500 [("XSRF-TOKEN", tokens_create T k (tokens_salt B))]
            (Some (500, BError (message e))))
     (add_error (mkLog "error" (message e) (stack e) "express") (wld s))).
Proof.
  intros Hk Hres Hb Hse Hpass Hp. unfold app, stages.
  assert (Hs : sent (res s) = None) by (rewrite Hres; reflexivity).
  rewrite (front_pass T B s k _ Hk Hs Hb Hse Hpass).
  unfold back_stages. cbn [dispatch].
  unfold bind, passport_initialize, passport_session, await, ret, throw.
  rewrite Hp. simpl.
  rewrite error_middleware_run by (simpl; exact Hs).
  simpl. rewrite Hres. reflexivity.
Qed.

Lemma passport_fault_keeps_cookie_witness :
  app toy_tokens passport_fails (profile_router passport_fails (ret Next)) state0 =
  (Ok tt,
   mkState (req state0)
     (mkRes 500 [("XSRF-TOKEN", tokens_create toy_tokens "k" (tokens_salt passport_fails))]
            (Some (500, BError (message boom))))
     (add_error (mkLog "error" (message boom) (stack boom) "express") (wld state0))).
Proof.
  apply (passport_fault_keeps_cookie toy_tokens passport_fails
           (profile_router passport_fails (ret Next)) state0 "k" boom);
    try reflexivity.
  right. reflexivity.
Defined.

Lemma frontend_route T B router s k :
  method (req s) = GET \/ method (req s) = HEAD ->
  csrfSecret (session (req s)) = Some k -> sent (res s) = None ->
  bodyParser_fault B = None -> session_fault B = None -> passport_fault B = None ->
  router (with_cookie T B k s) = (Ok Next, with_cookie T B k s) ->
  app T B router s =
  match frontend_fault B with
  | Some _ => (Ok tt, with_cookie T B k s)
  | None =>
      (Ok tt,
       mkState (req s)
         (mkRes (statusCode (res s))
                (cookies (res s)
                 ++ [("XSRF-TOKEN", tokens_create T k (tokens_salt B))])
                (Some (statusCode (res s), BFrontend)))
         (wld s))
  end.
Proof.
  intros Hm Hk Hs Hb Hse Hp Hr. unfold app, stages.
  assert (Hpass : ignoreMethod (method (req s)) = true \/
                  verify_supplied T k (supplied_token (req s)) = true).
  { left. destruct Hm as [-> | ->]; reflexivity. }
  rewrite (front_pass T B s k _ Hk Hs Hb Hse Hpass), (back_run B _ _ Hp).
  rewrite Hr. unfold frontend, bind, get, res_send, modify_res, ret, with_cookie.
  destruct s as [rq [sc ck sn] w]. simpl in *. subst sn.
  destruct Hm as [-> | ->]; destruct (frontend_fault B); reflexivity.
Qed.

Lemma profile_router_reads B g s :
  method (req s) = GET \/ method (req s) = HEAD ->
  profile_router B g s = (Ok Next, s).
Proof.
  intros Hm. unfold profile_router, bind, get.
  destruct Hm as [-> | ->]; destruct (path (req s)); reflexivity.
Qed.

(** C7: the claim fails on the code for a GET or HEAD request that the API
    routers pass on while the front end cannot be reached: the request went
    through the whole chain, no stage reports an error, nothing is logged
    and no response is sent. *)
Theorem frontend_failure_unanswered T B router s k e :
  method (req s) = GET \/ method (req s) = HEAD ->
  csrfSecret (session (req s)) = Some k -> sent (res s) = None ->
  bodyParser_fault B = None -> session_fault B = None -> passport_fault B = None ->
  router (with_cookie T B k s) = (Ok Next, with_cookie T B k s) ->
  frontend_fault B = Some e ->
  app T B router s = (Ok tt, with_cookie T B k s) /\
  sent (res (snd (app T B router s))) = None /\
  error_log (wld (snd (app T B router s))) = error_log (wld s).
Proof.
  intros Hm Hk Hs Hb Hse Hp Hr Hf.
  rewrite (frontend_route T B router s k Hm Hk Hs Hb Hse Hp Hr), Hf. simpl. auto.
Qed.

Lemma frontend_failure_unanswered_witness :
  app toy_tokens frontend_down (profile_router frontend_down (ret Next)) get_state
  = (Ok tt, with_cookie toy_tokens frontend_down "k" get_state) /\
  sent (res (snd (app toy_tokens frontend_down
                      (profile_router frontend_down (ret Next)) get_state))) = None /\
  error_log (wld (snd (app toy_tokens frontend_down
                           (profile_router frontend_down (ret Next)) get_state)))
  = error_log (wld get_state).
Proof.
  apply (frontend_failure_unanswered toy_tokens frontend_down
           (profile_router frontend_down (ret Next)) get_state "k" boom);
    try reflexivity.
  left. reflexivity.
Defined.

(** X8: with the profile router mounted, a GET or HEAD request is never
    served by the delete-account or attach-card routes: whatever the path and
    the login guard, it is passed on to the front-end route, and when the
    front end answers it is answered with the front-end page while no store
    or log is changed. *)
Theorem get_reaches_no_handler T B g s k :
  method (req s) = GET \/ method (req s) = HEAD ->
  csrfSecret (session (req s)) = Some k -> sent (res s) = None ->
  bodyParser_fault B = None -> session_fault B = None -> passport_fault B = None ->
  frontend_fault B = None ->
  app T B (profile_router B g) s =
  (Ok tt,
   mkState (req s)
     (mkRes (statusCode (res s))
            (cookies (res s) ++ [("XSRF-TOKEN", tokens_create T k (tokens_salt B))])
            (Some (statusCode (res s), BFrontend)))
     (wld s)).
Proof.
  intros Hm Hk Hs Hb Hse Hp Hf.
  rewrite (frontend_route T B _ s k Hm Hk Hs Hb Hse Hp
             (profile_router_reads B g (with_cookie T B k s) Hm)), Hf.
  reflexivity.
Qed.

Lemma get_reaches_no_handler_witness :
  app toy_tokens healthy (profile_router healthy (throw boom)) get_state =
  (Ok tt,
   mkState (req get_state)
     (mkRes (statusCode (res get_state))
            (cookies (res get_state)
             ++ [("XSRF-TOKEN", tokens_create toy_tokens "k" (tokens_salt healthy))])
            (Some (statusCode (res get_state), BFrontend)))
     (wld get_state)).
Proof.
  apply (get_reaches_no_handler toy_tokens healthy (throw boom) get_state "k");
    try reflexivity.
  left. reflexivity.
Defined.

(** X9: when an error reaches the error middleware after the response went
    out with status 200, sending again throws and no entry is written to the
    error log; with another status code the entry is written and the
    response is left as it is. *)
Theorem error_after_response err s r :
  sent (res s) = Some r ->
  (statusCode (res s) = 200 ->
   fst (error_middleware err s) = Throw headers_sent /\
   wld (snd (error_middleware err s)) = wld s /\
   sent (res (snd (error_middleware err s))) = Some r) /\
  (statusCode (res s) <> 200 ->
   error_middleware err s =
   (Ok tt, mkState (req s) (res s)
             (add_error (mkLog "error" (message err) (stack err) "express")
                        (wld s)))).
Proof.
  intros Hs.
  unfold error_middleware, bind, get, when, res_status, res_send,
    errorLogger_log, modify_res, modify_world, ret, throw. simpl.
  split.
  - intros H. rewrite H. simpl. rewrite Hs. auto.
  - intros H. apply Z.eqb_neq in H. rewrite H. reflexivity.
Qed.

Lemma error_after_response_witness :
  (statusCode (res answered_state) = 200 ->
   fst (error_middleware boom answered_state) = Throw headers_sent /\
   wld (snd (error_middleware boom answered_state)) = wld answered_state /\
   sent (res (snd (error_middleware boom answered_state))) = Some (200, BLoggedOut)) /\
  (statusCode (res answered_state) <> 200 ->
   error_middleware boom answered_state =
   (Ok tt, mkState (req answered_state) (res answered_state)
             (add_error (mkLog "error" (message boom) (stack boom) "express")
                        (wld answered_state)))).
Proof.
  exact (error_after_response boom answered_state (200, BLoggedOut) eq_refl).
Defined.

(** ** Attaching a payment card: failures and repetition *)

(** X10: when the card creation fails after a customer was created for a
    user without one, the handler stops there: nothing is saved, so the new
    customer id is stored neither in the row nor in the instance. *)
Theorem put_card_orphan_customer B s u c e :
  req_user (req s) = Some u ->
  truthy (stripe_customer_id u) = false ->
  createCustomer_reply B (email u) = inl c ->
  createCard_reply B (card_token (req s)) c = inr e ->
  put_card B s =
  (Throw e,
   mkState (req s) (res s)
     (log_event (EvCreateCard (card_token (req s)) c)
        (log_event (EvCreateCustomer (email u)) (wld s)))).
Proof.
  intros Hu Ht Hc He.
  rewrite (put_card_new B s u Hu Ht), Hc, card_tail_run. simpl.
  rewrite He. reflexivity.
Qed.

Lemma put_card_orphan_customer_witness :
  put_card card_declined alice_card_state =
  (Throw boom,
   mkState (req alice_card_state) (res alice_card_state)
     (log_event (EvCreateCard (card_token (req alice_card_state))
                              "cus_alice@example.org")
        (log_event (EvCreateCustomer (email alice)) (wld alice_card_state)))).
Proof.
  apply (put_card_orphan_customer card_declined alice_card_state alice
           "cus_alice@example.org" boom); reflexivity.
Defined.

(** X11: for a user without customer reference, a successful run creates the
    customer first, creates the card for that customer, and saves both ids
    in the user's row in one update; the answer is the updated user. *)
Theorem put_card_new_customer B s u c card :
  req_user (req s) = Some u ->
  truthy (stripe_customer_id u) = false ->
  createCustomer_reply B (email u) = inl c ->
  createCard_reply B (card_token (req s)) c = inl card ->
  update_fault B = None -> sent (res s) = None ->
  let r := put_card B s in
  let d := mkUpdate (Some c) (Some card) in
  fst r = Ok tt /\
  trace (wld (snd r))
  = trace (wld s) ++ [EvCreateCustomer (email u);
                      EvCreateCard (card_token (req s)) c;
                      EvUpdate (id u) d] /\
  users (wld (snd r)) = update_row (id u) d (users (wld s)) /\
  (forall row, In row (users (wld (snd r))) -> id row = id u ->
               stripe_customer_id row = Some c /\ stripe_card_id row = Some card) /\
  sent (res (snd r)) = Some (statusCode (res s), BUser (apply_update d u)).
Proof.
  intros Hu Ht Hc Hcard Hup Hs r d. subst r d.
  rewrite (put_card_new B s u Hu Ht), Hc, card_tail_run. simpl.
  rewrite Hcard, Hup. simpl. rewrite Hs. simpl.
  rewrite <- !app_assoc. simpl. repeat split.
  - unfold update_row in H. apply in_map_iff in H. destruct H as [r0 [<- _]].
    destruct (Z.eqb_spec (id r0) (id u)); [reflexivity | contradiction].
  - unfold update_row in H. apply in_map_iff in H. destruct H as [r0 [<- _]].
    destruct (Z.eqb_spec (id r0) (id u)); [reflexivity | contradiction].
Qed.

Lemma put_card_new_customer_witness :
  let r := put_card healthy alice_card_state in
  let d := mkUpdate (Some "cus_alice@example.org") (Some "card_tok_visa") in
  fst r = Ok tt /\
  trace (wld (snd r))
  = trace (wld alice_card_state)
    ++ [EvCreateCustomer (email alice);
        EvCreateCard (card_token (req alice_card_state)) "cus_alice@example.org";
        EvUpdate (id alice) d] /\
  users (wld (snd r)) = update_row (id alice) d (users (wld alice_card_state)) /\
  (forall row, In row (users (wld (snd r))) -> id row = id alice ->
               stripe_customer_id row = Some "cus_alice@example.org" /\
               stripe_card_id row = Some "card_tok_visa") /\
  sent (res (snd r))
  = Some (statusCode (res alice_card_state), BUser (apply_update d alice)).
Proof.
  apply (put_card_new_customer healthy alice_card_state alice
           "cus_alice@example.org" "card_tok_visa"); reflexivity.
Defined.

Lemma update_row_fields uid d l :
  map id (update_row uid d l) = map id l /\
  map email (update_row uid d l) = map email l /\
  map picture (update_row uid d l) = map picture l.
Proof.
  unfold update_row. rewrite !map_map.
  repeat split; apply map_ext; intros r; destruct (id r =? uid); reflexivity.
Qed.

Lemma update_row_keeps uid d l row :
  In row l -> id row <> uid -> In row (update_row uid d l).
Proof.
  intros Hin Hne. unfold update_row. apply in_map_iff. exists row.
  split; [|assumption]. apply Z.eqb_neq in Hne. rewrite Hne. reflexivity.
Qed.

(** X12: whatever happens, attaching a card changes at most the two payment
    references: ids, e-mail addresses and pictures of all rows are kept, rows
    of other users are kept as they are, and articles, blobs, documents,
    session and logs are untouched. *)
Theorem put_card_frame B s :
  let w' := wld (snd (put_card B s)) in
  map id (users w') = map id (users (wld s)) /\
  map email (users w') = map email (users (wld s)) /\
  map picture (users w') = map picture (users (wld s)) /\
  (forall u row, req_user (req s) = Some u ->
                 In row (users (wld s)) -> id row <> id u -> In row (users w')) /\
  articles w' = articles (wld s) /\
  blobs w' = blobs (wld s) /\
  articlesviews w' = articlesviews (wld s) /\
  session_alive w' = session_alive (wld s) /\
  info_log w' = info_log (wld s) /\
  error_log w' = error_log (wld s).
Proof.
  destruct s as [rq rs w]. card_unfold.
  repeat split_match; simpl;
    repeat match goal with
           | |- _ /\ _ => split
           end;
    try reflexivity;
    try apply update_row_fields;
    try (intros u0 row Hu0 Hin Hne; try assumption;
         injection Hu0 as <-; apply update_row_keeps; assumption).
Qed.

Lemma put_card_existing_trace B s u c :
  req_user (req s) = Some u ->
  stripe_customer_id u = Some c -> truthy (Some c) = true ->
  exists tl,
    trace (wld (snd (put_card B s)))
    = trace (wld s) ++ EvCreateCard (card_token (req s)) c :: tl /\
    forall m, ~ In (EvCreateCustomer m) tl.
Proof.
  intros Hu Hc Ht. rewrite (put_card_existing B s u c Hu Hc Ht), card_tail_run.
  destruct (createCard_reply B (card_token (req s)) c) as [card|e].
  - destruct (update_fault B) as [e|]; [|destruct (sent (res s))];
      cbv zeta; simpl; rewrite <- ?app_assoc; simpl;
      (eexists; split; [reflexivity|]);
      intros m [H|[]]; discriminate.
  - simpl. exists []. split; [reflexivity|]. intros m [].
Qed.

(** X13: after a successful run for a user whose row is the attached
    instance (and with a payment provider that does not hand out empty
    customer ids), the user's row holds a customer reference, and any later
    run for that row starts with the card creation for that customer and
    creates no customer. *)
Theorem put_card_again B1 s u :
  req_user (req s) = Some u ->
  (forall row, In row (users (wld s)) -> id row = id u -> row = u) ->
  (forall c, createCustomer_reply B1 (email u) = inl c -> c <> "") ->
  fst (put_card B1 s) = Ok tt ->
  forall u2, In u2 (users (wld (snd (put_card B1 s)))) -> id u2 = id u ->
  exists cust,
    stripe_customer_id u2 = Some cust /\
    forall B2 s2, req_user (req s2) = Some u2 ->
      exists tl,
        trace (wld (snd (put_card B2 s2)))
        = trace (wld s2) ++ EvCreateCard (card_token (req s2)) cust :: tl /\
        forall m, ~ In (EvCreateCustomer m) tl.
Proof.
  intros Hu Hsync Hne Hok u2 Hin Hid.
  assert (Hgoal : exists cust, stripe_customer_id u2 = Some cust /\
                               truthy (Some cust) = true).
  { destruct (truthy (stripe_customer_id u)) eqn:Ht.
    - destruct (stripe_customer_id u) as [c|] eqn:Hc; [|discriminate].
      rewrite (put_card_existing B1 s u c Hu Hc Ht), card_tail_run in Hok, Hin.
      destruct (createCard_reply B1 (card_token (req s)) c) as [card|e];
        [|discriminate].
      destruct (update_fault B1); [discriminate|].
      destruct (sent (res s)); [discriminate|].
      cbv zeta in Hin. simpl in Hin. unfold update_row in Hin.
      apply in_map_iff in Hin. destruct Hin as [r0 [Hr0 Hin0]].
      exists c. destruct (Z.eqb_spec (id r0) (id u)) as [E|E].
      + rewrite (Hsync r0 Hin0 E) in Hr0. subst u2.
        unfold apply_update. simpl. rewrite Hc. auto.
      + subst u2. contradiction.
    - rewrite (put_card_new B1 s u Hu Ht) in Hok, Hin.
      destruct (createCustomer_reply B1 (email u)) as [c|e] eqn:Hc; [|discriminate].
      rewrite card_tail_run in Hok, Hin. simpl in Hok, Hin.
      destruct (createCard_reply B1 (card_token (req s)) c) as [card|e];
        [|discriminate].
      destruct (update_fault B1); [discriminate|].
      destruct (sent (res s)); [discriminate|].
      simpl in Hin. unfold update_row in Hin.
      apply in_map_iff in Hin. destruct Hin as [r0 [Hr0 Hin0]].
      exists c. destruct (Z.eqb_spec (id r0) (id u)) as [E|E].
      + subst u2. unfold apply_update. simpl. split; [reflexivity|].
        apply negb_true_iff, String.eqb_neq. apply Hne. reflexivity.
      + subst u2. contradiction. }
  destruct Hgoal as [cust [Hcust Ht]]. exists cust. split; [assumption|].
  intros B2 s2 Hu2. exact (put_card_existing_trace B2 s2 u2 cust Hu2 Hcust Ht).
Qed.

Lemma put_card_again_witness :
  exists cust,
    stripe_customer_id
      (apply_update (mkUpdate (Some "cus_alice@example.org") (Some "card_tok_visa"))
                    alice) = Some cust /\
    forall B2 s2,
      req_user (req s2)
      = Some (apply_update
                (mkUpdate (Some "cus_alice@example.org") (Some "card_tok_visa"))
                alice) ->
      exists tl,
        trace (wld (snd (put_card B2 s2)))
        = trace (wld s2) ++ EvCreateCard (card_token (req s2)) cust :: tl /\
        forall m, ~ In (EvCreateCustomer m) tl.
Proof.
  apply (put_card_again healthy alice_card_state alice).
  - reflexivity.
  - intros row Hin Hid. simpl in Hin. destruct Hin as [<-|[<-|[]]].
    + reflexivity.
    + discriminate.
  - intros c Hc. simpl in Hc. injection Hc as <-. discriminate.
  - reflexivity.
  - simpl. left. reflexivity.
  - reflexivity.
Defined.

(** ** The picture route *)

Lemma picture_row_set uid p l row :
  In row (Picture.picture_row uid p l) -> id row = uid -> picture row = Some p.
Proof.
  unfold Picture.picture_row. intros Hin Hid. apply in_map_iff in Hin.
  destruct Hin as [r0 [<- _]].
  destruct (Z.eqb_spec (id r0) uid); [reflexivity | contradiction].
Qed.

Lemma picture_row_keeps uid p l row :
  In row l -> id row <> uid -> In row (Picture.picture_row uid p l).
Proof.
  intros Hin Hne. unfold Picture.picture_row. apply in_map_iff. exists row.
  split; [|assumption]. apply Z.eqb_neq in Hne. rewrite Hne. reflexivity.
Qed.

Lemma remove_blob_keeps u b bl : In b bl -> b <> u -> In b (remove_blob u bl).
Proof.
  intros Hin Hne. unfold remove_blob. apply filter_In. split; [assumption|].
  apply negb_true_iff, String.eqb_neq. exact Hne.
Qed.

Ltac picture_unfold :=
  unfold Picture.put_picture, Picture.pbind, Picture.the_user, Picture.the_file,
    Picture.user_update, Picture.infoLogger_log, Picture.deleteFile,
    Picture.res_json, Picture.started, Picture.pret, Picture.pthrow.

(** X14: when saving the new picture fails, the picture route stops: the
    rows and the blob store are unchanged (the old picture is kept, the
    upload is not removed), nothing is logged or answered, and no blob
    deletion is started. *)
Theorem put_picture_update_fails B s u f e :
  Picture.instance s = Some u -> Picture.file s = Some f ->
  update_fault B = Some e ->
  let r := Picture.put_picture B s in
  fst r = Throw e /\
  Picture.rows (snd r) = Picture.rows s /\
  Picture.store (snd r) = Picture.store s /\
  Picture.log (snd r) = Picture.log s /\
  Picture.answer (snd r) = Picture.answer s /\
  Picture.calls (snd r) = Picture.calls s ++ [Picture.Update (id u) f].
Proof.
  intros Hu Hf He. picture_unfold. rewrite Hu, Hf, He. simpl. repeat split.
Qed.

Lemma put_picture_update_fails_witness :
  let s := Picture.upload_state alice (Some "avatars/new.png") in
  let r := Picture.put_picture update_fails s in
  fst r = Throw boom /\
  Picture.rows (snd r) = Picture.rows s /\
  Picture.store (snd r) = Picture.store s /\
  Picture.log (snd r) = Picture.log s /\
  Picture.answer (snd r) = Picture.answer s /\
  Picture.calls (snd r) = Picture.calls s ++ [Picture.Update (id alice) "avatars/new.png"].
Proof.
  exact (put_picture_update_fails update_fails
           (Picture.upload_state alice (Some "avatars/new.png")) alice
           "avatars/new.png" boom eq_refl eq_refl eq_refl).
Defined.

Lemma put_picture_success_facts B s u f :
  Picture.instance s = Some u -> Picture.file s = Some f ->
  fst (Picture.put_picture B s) = Ok tt ->
  let s' := snd (Picture.put_picture B s) in
  Picture.rows s' = Picture.picture_row (id u) f (Picture.rows s) /\
  (forall row, In row (Picture.rows s') -> id row = id u -> picture row = Some f) /\
  (forall p, picture u = Some p -> p <> "" -> ~ In p (Picture.store s')) /\
  (forall b, In b (Picture.store s) -> picture u <> Some b -> In b (Picture.store s')) /\
  Picture.log s' = Picture.log s ++ [Picture.PictureUpdated (id u)] /\
  Picture.answer s' = Some (Picture.status s, Picture.PictureData (Some f)).
Proof.
  intros Hu Hf. picture_unfold. rewrite Hu, Hf. simpl.
  destruct (update_fault B); simpl; [discriminate|].
  destruct (picture u) as [p|] eqn:Hp; simpl.
  - destruct (String.eqb_spec p "") as [E|E]; simpl.
    + destruct (Picture.answer s); simpl; [discriminate|]. intros _.
      repeat split; auto.
      * intros row. apply picture_row_set.
      * intros p0 Hp0 Hne. exfalso. apply Hne. injection Hp0 as <-. exact E.
    + destruct (deleteFile_fault B p); simpl; [discriminate|].
      destruct (Picture.answer s); simpl; [discriminate|]. intros _.
      repeat split; auto.
      * intros row. apply picture_row_set.
      * intros p0 Hp0 _. injection Hp0 as <-. apply remove_blob_gone.
      * intros b Hin Hne. apply remove_blob_keeps; [assumption|].
        intros ->. apply Hne. reflexivity.
  - destruct (Picture.answer s); simpl; [discriminate|]. intros _.
    repeat split; auto.
    + intros row. apply picture_row_set.
    + discriminate.
Qed.

(** X15: when the picture route returns normally, the user's row holds the
    uploaded URL, a non-empty old picture is gone from the blob store, every
    other blob (the upload among them when its URL differs from the old one)
    is still there, the success entry is logged and the answer carries the
    new picture. *)
Theorem put_picture_success B s u f :
  Picture.instance s = Some u -> Picture.file s = Some f ->
  fst (Picture.put_picture B s) = Ok tt ->
  let s' := snd (Picture.put_picture B s) in
  Picture.rows s' = Picture.picture_row (id u) f (Picture.rows s) /\
  (forall row, In row (Picture.rows s') -> id row = id u -> picture row = Some f) /\
  (forall p, picture u = Some p -> p <> "" -> ~ In p (Picture.store s')) /\
  (forall b, In b (Picture.store s) -> picture u <> Some b -> In b (Picture.store s')) /\
  Picture.log s' = Picture.log s ++ [Picture.PictureUpdated (id u)] /\
  Picture.answer s' = Some (Picture.status s, Picture.PictureData (Some f)).
Proof. exact (put_picture_success_facts B s u f). Qed.

Lemma put_picture_success_witness :
  let s := Picture.upload_state alice (Some "avatars/new.png") in
  let s' := snd (Picture.put_picture healthy s) in
  Picture.rows s' = Picture.picture_row (id alice) "avatars/new.png" (Picture.rows s) /\
  (forall row, In row (Picture.rows s') -> id row = id alice ->
               picture row = Some "avatars/new.png") /\
  (forall p, picture alice = Some p -> p <> "" -> ~ In p (Picture.store s')) /\
  (forall b, In b (Picture.store s) -> picture alice <> Some b ->
             In b (Picture.store s')) /\
  Picture.log s' = Picture.log s ++ [Picture.PictureUpdated (id alice)] /\
  Picture.answer s'
  = Some (Picture.status s, Picture.PictureData (Some "avatars/new.png")).
Proof.
  exact (put_picture_success healthy
           (Picture.upload_state alice (Some "avatars/new.png")) alice
           "avatars/new.png" eq_refl eq_refl eq_refl).
Defined.

(** X16: when the old picture cannot be deleted, the row already holds the
    new picture and the success entry is already logged, yet the run ends in
    the error, without an answer of its own, and the old blob stays. *)
Theorem put_picture_old_blob_fails B s u f p e :
  Picture.instance s = Some u -> Picture.file s = Some f ->
  update_fault B = None ->
  picture u = Some p -> p <> "" -> deleteFile_fault B p = Some e ->
  let r := Picture.put_picture B s in
  fst r = Throw e /\
  Picture.rows (snd r) = Picture.picture_row (id u) f (Picture.rows s) /\
  Picture.log (snd r) = Picture.log s ++ [Picture.PictureUpdated (id u)] /\
  Picture.store (snd r) = Picture.store s /\
  Picture.answer (snd r) = Picture.answer s.
Proof.
  intros Hu Hf Hup Hp Hne He. picture_unfold. rewrite Hu, Hf, Hup. simpl.
  rewrite Hp. simpl. apply String.eqb_neq in Hne. rewrite Hne. simpl.
  rewrite He. simpl. repeat split.
Qed.

Lemma put_picture_old_blob_fails_witness :
  let s := Picture.upload_state alice (Some "avatars/new.png") in
  let r := Picture.put_picture avatar_fails s in
  fst r = Throw boom /\
  Picture.rows (snd r) = Picture.picture_row (id alice) "avatars/new.png" (Picture.rows s) /\
  Picture.log (snd r) = Picture.log s ++ [Picture.PictureUpdated (id alice)] /\
  Picture.store (snd r) = Picture.store s /\
  Picture.answer (snd r) = Picture.answer s.
Proof.
  apply (put_picture_old_blob_fails avatar_fails
           (Picture.upload_state alice (Some "avatars/new.png")) alice
           "avatars/new.png" "avatars/alice.png" boom); try reflexivity.
  discriminate.
Defined.

(** X17: when the upload has the URL of the current, non-empty picture, a
    run that returns normally leaves the row pointing at a blob that is no
    longer in the store. *)
Theorem put_picture_same_url B s u f :
  Picture.instance s = Some u -> Picture.file s = Some f ->
  picture u = Some f -> f <> "" ->
  fst (Picture.put_picture B s) = Ok tt ->
  let s' := snd (Picture.put_picture B s) in
  ~ In f (Picture.store s') /\
  (forall row, In row (Picture.rows s') -> id row = id u -> picture row = Some f).
Proof.
  intros Hu Hf Hp Hne Hok s'. subst s'.
  destruct (put_picture_success_facts B s u f Hu Hf Hok) as [_ [Hrows [Hgone _]]].
  split; [exact (Hgone f Hp Hne) | exact Hrows].
Qed.

Lemma put_picture_same_url_witness :
  let s := Picture.upload_state alice (Some "avatars/alice.png") in
  let s' := snd (Picture.put_picture healthy s) in
  ~ In "avatars/alice.png" (Picture.store s') /\
  (forall row, In row (Picture.rows s') -> id row = id alice ->
               picture row = Some "avatars/alice.png").
Proof.
  apply (put_picture_same_url healthy
           (Picture.upload_state alice (Some "avatars/alice.png")) alice
           "avatars/alice.png"); try reflexivity.
  discriminate.
Defined.

(** ** Start-up *)


(** X19: the first failing connection is logged with a message that names the
    database and wraps the original message, after which the logger is ended
    and the process exits with code 1; before that nothing was logged as
    information and nothing listens. *)
Theorem boot_failure_logged E err :
  Boot.mongo E = Some err \/ (Boot.mongo E = None /\ Boot.mysql E = Some err) ->
  exists db msg done,
    (db = "MongoDB" \/ db = "MySQL") /\
    msg = ("Unable to connect to " ++ db ++ " database (" ++ message err ++ ")")%string /\
    Boot.main E = done ++ [Boot.ErrorLogged msg (Boot.stack_of E msg);
                            Boot.LoggerEnd; Boot.Exit 1] /\
    (db = "MongoDB" <-> Boot.mongo E <> None) /\
    forallb (fun x => negb (Boot.is_info x) && negb (Boot.is_listen x)) done = true.
Proof.
  unfold Boot.main, Boot.startServer.
  intros [H|[H1 H2]].
  - rewrite H. exists "MongoDB". eexists. exists [Boot.MongoConnect].
    simpl. repeat split; auto. discriminate.
  - rewrite H1, H2. exists "MySQL". eexists.
    exists [Boot.MongoConnect; Boot.MysqlAuthenticate].
    simpl. repeat split; auto; try discriminate. intros H; contradiction.
Qed.

Lemma boot_failure_logged_witness :
  exists db msg done,
    (db = "MongoDB" \/ db = "MySQL") /\
    msg = ("Unable to connect to " ++ db ++ " database (" ++ message boom ++ ")")%string /\
    Boot.main mysql_down
    = done ++ [Boot.ErrorLogged msg (Boot.stack_of mysql_down msg);
               Boot.LoggerEnd; Boot.Exit 1] /\
    (db = "MongoDB" <-> Boot.mongo mysql_down <> None) /\
    forallb (fun x => negb (Boot.is_info x) && negb (Boot.is_listen x)) done = true.
Proof.
  apply (boot_failure_logged mysql_down boom). right. split; reflexivity.
Defined.
